(** * Momentum gradient descent over a layer sequence

    A shallow embedding of [lib/ml/optimizer/gradient_descent_optimizer.py]
    and [lib/util/activation_function.py].

    Modelling choices:
    - Python exceptions are values of [exn]; every method is a function
      from the state before the call to an outcome and the state after it,
      so the attribute writes that happened before an exception are kept.
    - numpy floats are idealised as rationals [Q]; numpy arrays are
      two-dimensional, stored as numpy stores them: a shape and a flat
      row-major buffer.
    - An instance attribute that was only annotated on the class and never
      assigned is [None] in the record of the instance; reading it raises
      [AttributeError].
    - Layer objects are held by value: two positions of a composite never
      share one layer object. *)

From Stdlib Require Import QArith Lia Lqa.
From stdpp Require Import gmap strings list fin_maps.

Local Open Scope Q_scope.
Local Open Scope nat_scope.
Local Open Scope string_scope.

(** ** Exceptions and outcomes *)

Inductive exn : Set :=
| AttributeError
| IndexError
| KeyError
| TypeError
| UnboundLocalError
| ValueError.

Inductive res (A : Type) : Type :=
| Ok (a : A)
| Err (e : exn).
Arguments Ok {A} a.
Arguments Err {A} e.

(** ** The array substrate (the part of numpy the optimizer uses) *)

Module Np.

Record Array : Type := mkArray { nrows : nat; ncols : nat; data : list Q }.

Definition shape (a : Array) : nat * nat := (nrows a, ncols a).

(** [a[i, j]] for an index inside the shape. *)
Definition get (a : Array) (i j : nat) : Q := nth (i * ncols a + j) (data a) 0%Q.

Definition tabulate (r c : nat) (f : nat -> nat -> Q) : Array :=
  mkArray r c (flat_map (fun i => map (f i) (seq 0 c)) (seq 0 r)).

(** The array written as a list of rows, as in [np.array([[2.0]])]. *)
Definition of_rows (rows : list (list Q)) : Array :=
  mkArray (length rows)
          (match rows with [] => 0 | r :: _ => length r end)
          (concat rows).

(** [np.zeros(shape)], [np.ones(shape)] *)
Definition zeros (s : nat * nat) : Array := tabulate (fst s) (snd s) (fun _ _ => 0%Q).
Definition ones (s : nat * nat) : Array := tabulate (fst s) (snd s) (fun _ _ => 1%Q).

(** [a.T] *)
Definition transpose (a : Array) : Array :=
  tabulate (ncols a) (nrows a) (fun i j => get a j i).

Definition sumQ (l : list Q) : Q := fold_right Qplus 0%Q l.

(** [np.dot(a, b)] on two-dimensional operands: the matrix product, or
    [ValueError] when the inner dimensions differ. *)
Definition dot (a b : Array) : res Array :=
  if Nat.eqb (ncols a) (nrows b)
  then Ok (tabulate (nrows a) (ncols b)
             (fun i j => sumQ (map (fun k => (get a i k * get b k j)%Q) (seq 0 (ncols a)))))
  else Err ValueError.

(** numpy's broadcasting rule for one axis. *)
Definition bdim (n m : nat) : option nat :=
  if Nat.eqb n m then Some n
  else if Nat.eqb n 1 then Some m
  else if Nat.eqb m 1 then Some n
  else None.

(** Reading a broadcast operand: an axis of length 1 is repeated. *)
Definition bget (a : Array) (i j : nat) : Q :=
  get a (if Nat.eqb (nrows a) 1 then 0 else i) (if Nat.eqb (ncols a) 1 then 0 else j).

(** An elementwise binary operator [a (op) b] with broadcasting. *)
Definition elementwise (op : Q -> Q -> Q) (a b : Array) : res Array :=
  match bdim (nrows a) (nrows b), bdim (ncols a) (ncols b) with
  | Some r, Some c => Ok (tabulate r c (fun i j => op (bget a i j) (bget b i j)))
  | _, _ => Err ValueError
  end.

Definition add : Array -> Array -> res Array := elementwise Qplus.
Definition mul : Array -> Array -> res Array := elementwise Qmult.

(** [c * a] for a Python scalar [c]. *)
Definition scale (c : Q) (a : Array) : Array :=
  tabulate (nrows a) (ncols a) (fun i j => (c * get a i j)%Q).

(** [a / m] for a Python integer [m]. *)
Definition div_int (a : Array) (m : nat) : Array :=
  tabulate (nrows a) (ncols a) (fun i j => (get a i j / inject_Z (Z.of_nat m))%Q).

(** [np.mean(a, axis=1, keepdims=True)]: the mean of every row, as a column. *)
Definition mean_axis1 (a : Array) : Array :=
  tabulate (nrows a) 1
    (fun i _ => (sumQ (map (get a i) (seq 0 (ncols a))) / inject_Z (Z.of_nat (ncols a)))%Q).

(** [a -= b]: the difference is written back into [a], so it must have
    the shape of [a]. *)
Definition isub (a b : Array) : res Array :=
  match elementwise Qminus a b with
  | Ok r => if decide (shape r = shape a) then Ok r else Err ValueError
  | Err e => Err e
  end.

(** [z > 0] as numpy uses it in arithmetic: 1 where true, 0 where false. *)
Definition gt0 (z : Array) : Array :=
  tabulate (nrows z) (ncols z) (fun i j => if Qlt_le_dec 0 (get z i j) then 1%Q else 0%Q).

(** Two arrays of one shape whose entries are equal as rationals. *)
Definition array_eq (a b : Array) : Prop :=
  shape a = shape b /\
  forall i j, i < nrows a -> j < ncols a -> (get a i j == get b i j)%Q.

End Np.
Import Np.

(** ** Collaborators *)

(** [lib/util/activation_function.py]: an object with the two methods
    [apply] and [apply_derivative]. *)
Record ActivationFunction : Type := mkActivation {
  apply : Array -> Array;
  apply_derivative : Array -> Array
}.

(** [class Linear]: [apply] returns [z], the derivative is [np.ones(z.shape)]. *)
Definition LINEAR_ACTIVATION : ActivationFunction :=
  mkActivation (fun z => z) (fun z => ones (shape z)).

(** [class Relu]: [apply] is [(z > 0) * z], the derivative is [z > 0]. *)
Definition RELU_ACTIVATION : ActivationFunction :=
  mkActivation
    (fun z => tabulate (nrows z) (ncols z) (fun i j => (get (gt0 z) i j * get z i j)%Q))
    gt0.

(** Modelled from the spec: the loss interface of [lib.ml.util.loss_function]
    is not among the sources; section 6 gives it as [apply(y_true, y_pred)]
    returning a scalar and [apply_derivative(y_true, y_pred)] returning an
    array. *)
Record LossFunction : Type := mkLoss {
  loss_apply : Array -> Array -> Q;
  loss_apply_derivative : Array -> Array -> Array
}.

(** Modelled from the spec: the mean-squared-error loss of the scenario of
    section 8, [apply = (y_pred - y_true)^2] and
    [apply_derivative = 2 (y_pred - y_true)], entry by entry; the scalar is
    the sum of the entries (one entry in the scenario). *)
Definition MSE_LOSS : LossFunction :=
  mkLoss
    (fun y_true y_pred =>
       sumQ (map (fun p => ((fst p - snd p) * (fst p - snd p))%Q)
                 (zip (data y_pred) (data y_true))))
    (fun y_true y_pred =>
       tabulate (nrows y_pred) (ncols y_pred)
         (fun i j => (2 * (get y_pred i j - get y_true i j))%Q)).

(** Modelled from the spec: the layer classes of [lib.ml.layer.actual_layer]
    are not among the sources; section 3 lists the five variants and what
    each one holds. The optimizer tells them apart with class patterns. *)
#[local] Unset Elimination Schemes.
Inductive Layer : Type :=
| WeightLayer (weight : Array)
| BiasedWeightLayer (weight bias : Array)
| ActivationLayer (fun_ : ActivationFunction)
| ReshapeLayer (reshape : Array -> Array)
| CompositeLayer (values : list Layer).
#[local] Set Elimination Schemes.

(** Modelled from the spec: [OptimalResult] of [lib.ml.optimizer.nn_optimizer],
    the layer graph and the scalar loss of one step. *)
Record OptimalResult : Type := mkOptimalResult { layer : Layer; loss : Q }.

(** A Python value that can reach the [loss_fun] parameter of
    [__optimize_deep]: a loss function object or an integer. *)
Inductive PyObj : Type :=
| PyInt (n : Z)
| PyLossFunction (f : LossFunction).

(** ** The optimizer object *)

(** The four attributes the class annotates. [__init__] assigns the first
    two; the other two exist on an instance only once they are assigned. *)
Record GradientDescentOptimizer : Type := mkOptimizer {
  learning_rate : Q;
  momentum : Q;
  target : option Layer;
  velocities : option (gmap nat (gmap string Array))
}.

(** [__init__(self, learning_rate, momentum = 0)] *)
Definition init (learning_rate : Q) (momentum : Q) : GradientDescentOptimizer :=
  mkOptimizer learning_rate momentum None None.

Definition set_target (l : Layer) (self : GradientDescentOptimizer) :=
  mkOptimizer (learning_rate self) (momentum self) (Some l) (velocities self).

Definition set_velocities (v : gmap nat (gmap string Array))
    (self : GradientDescentOptimizer) :=
  mkOptimizer (learning_rate self) (momentum self) (target self) (Some v).

(** [self.__velocities[id] = entry]: the attribute is read first, then the
    item is stored. *)
Definition velocities_setitem (id : nat) (entry : gmap string Array)
    (self : GradientDescentOptimizer) : res unit * GradientDescentOptimizer :=
  match velocities self with
  | None => (Err AttributeError, self)
  | Some v => (Ok tt, set_velocities (<[id := entry]> v) self)
  end.

(** [__init_velocity(self, layer, id = 0)]. The loop
    [for i in range(len(values))] visits [values[i]] with [i] counting up
    from 0 and stops at the first exception. *)
Fixpoint init_velocity (layer : Layer) (id : nat) (self : GradientDescentOptimizer)
    {struct layer} : res unit * GradientDescentOptimizer :=
  match layer with
  | CompositeLayer values =>
      (fix loop (vs : list Layer) (i : nat) (self : GradientDescentOptimizer)
         {struct vs} : res unit * GradientDescentOptimizer :=
         match vs with
         | [] => (Ok tt, self)
         | v :: vs' =>
             match init_velocity v i self with
             | (Ok _, self') => loop vs' (S i) self'
             | (Err e, self') => (Err e, self')
             end
         end) values 0 self
  | BiasedWeightLayer weight bias =>
      velocities_setitem id
        (<["dw" := zeros (shape weight)]> (<["db" := zeros (shape bias)]> ∅)) self
  | WeightLayer weight =>
      velocities_setitem id (<["dw" := zeros (shape weight)]> ∅) self
  | ActivationLayer _ | ReshapeLayer _ => (Ok tt, self)
  end.

(** [prepare(self, params_supplier)] *)
Definition prepare (params_supplier : unit -> Layer)
    (self : GradientDescentOptimizer) : res unit * GradientDescentOptimizer :=
  let self1 := set_target (params_supplier tt) self in
  match target self1 with
  | Some t => init_velocity t 0 self1
  | None => (Err AttributeError, self1)
  end.

(** [__calculate_velocity(self, d, d_velocity)] *)
Definition calculate_velocity (self : GradientDescentOptimizer)
    (d d_velocity : Array) : res Array :=
  add (scale (momentum self) d_velocity) (scale (1 - momentum self)%Q d).

(** ** The traversal *)

(** What the closure [optimize_recursively] can reach and change: the list
    [layers] with the layer objects in it, and the optimizer [self]. *)
Record Env : Type := mkEnv { layers : list Layer; self_ : GradientDescentOptimizer }.

(** A computation over [Env] that returns a value or raises; [None] is a
    recursion that ran out of fuel. *)
Definition M (A : Type) : Type := Env -> option (res A * Env).

#[export] Instance M_ret : MRet M := fun A a env => Some (Ok a, env).
#[export] Instance M_bind : MBind M := fun A B f m env =>
  match m env with
  | Some (Ok a, env') => f a env'
  | Some (Err e, env') => Some (Err e, env')
  | None => None
  end.

Definition raise {A} (e : exn) : M A := fun env => Some (Err e, env).
Definition out_of_fuel {A} : M A := fun _ => None.
Definition lift {A} (r : res A) : M A := fun env => Some (r, env).
Definition get_env : M Env := fun env => Some (Ok env, env).

(** [layers[i]] *)
Definition layers_getitem (i : nat) : M Layer := fun env =>
  match layers env !! i with
  | Some l => Some (Ok l, env)
  | None => Some (Err IndexError, env)
  end.

(** [self.__velocities[layer_num]] *)
Definition velocities_getitem (layer_num : nat) : M (gmap string Array) := fun env =>
  match velocities (self_ env) with
  | None => Some (Err AttributeError, env)
  | Some v =>
      match v !! layer_num with
      | Some d => Some (Ok d, env)
      | None => Some (Err KeyError, env)
      end
  end.

(** [velocity[key]], where [velocity] is the dictionary stored under
    [layer_num]. *)
Definition velocity_getitem (layer_num : nat) (key : string) : M Array :=
  d ← velocities_getitem layer_num;
  match d !! key with
  | Some a => mret a
  | None => raise KeyError
  end.

(** [velocity[key] = a]: the dictionary is the one inside the store, so
    the store sees the new item. *)
Definition velocity_setitem (layer_num : nat) (key : string) (a : Array) : M unit :=
  fun env =>
    match velocities (self_ env) with
    | None => Some (Err AttributeError, env)
    | Some v =>
        Some (Ok tt,
              mkEnv (layers env)
                    (set_velocities (alter (fun d => <[key := a]> d) layer_num v)
                                    (self_ env)))
    end.

(** The in-place updates [it.weight -= delta] and [it.bias -= delta] of the
    layer object at position [pos] of [layers], which is the weighted layer
    the step has matched on. *)
Definition layer_isub_weight (pos : nat) (delta : Array) : M unit := fun env =>
  match layers env !! pos with
  | Some (WeightLayer w) =>
      match isub w delta with
      | Ok w' => Some (Ok tt, mkEnv (<[pos := WeightLayer w']> (layers env)) (self_ env))
      | Err e => Some (Err e, env)
      end
  | Some (BiasedWeightLayer w b) =>
      match isub w delta with
      | Ok w' => Some (Ok tt, mkEnv (<[pos := BiasedWeightLayer w' b]> (layers env)) (self_ env))
      | Err e => Some (Err e, env)
      end
  | _ => Some (Err AttributeError, env)
  end.

Definition layer_isub_bias (pos : nat) (delta : Array) : M unit := fun env =>
  match layers env !! pos with
  | Some (BiasedWeightLayer w b) =>
      match isub b delta with
      | Ok b' => Some (Ok tt, mkEnv (<[pos := BiasedWeightLayer w b']> (layers env)) (self_ env))
      | Err e => Some (Err e, env)
      end
  | _ => Some (Err AttributeError, env)
  end.

(** [dz, loss = r]: unpacking [None] raises. *)
Definition unpack (r : option (Array * Q)) : M (Array * Q) :=
  match r with
  | Some p => mret p
  | None => raise TypeError
  end.

(** The closure [optimize_recursively(layer_num, a_prev)] inside
    [__optimize_deep]; [y_true] and [loss_fun] are the variables it captures.
    Its value is a Python tuple, or [None] when no [case] of the [match]
    applies. Every recursive call is one unit of [fuel]. *)
Fixpoint optimize_recursively (y_true : Array) (loss_fun : PyObj)
    (fuel : nat) (layer_num : nat) (a_prev : Array) : M (option (Array * Q)) :=
  match fuel with
  | O => out_of_fuel
  | S fuel =>
      env ← get_env;
      if decide (length (layers env) <= layer_num) then
        match loss_fun with
        | PyInt _ => raise AttributeError
        | PyLossFunction f =>
            let da := loss_apply_derivative f y_true a_prev in
            let loss := loss_apply f y_true a_prev in
            mret (Some (da, loss))
        end
      else
        it ← layers_getitem (layer_num + 1);
        match it with
        | BiasedWeightLayer weight bias =>
            wa ← lift (dot weight a_prev);
            z ← lift (add wa bias);
            let m := ncols a_prev in
            r ← optimize_recursively y_true loss_fun fuel (layer_num + 1) z;
            '(dz, loss) ← unpack r;
            t ← lift (dot dz (transpose a_prev));
            let dw := div_int t m in
            let db := mean_axis1 dz in
            da ← lift (dot (transpose weight) dz);
            _ ← velocities_getitem layer_num;
            vdw ← velocity_getitem layer_num "dw";
            vdw' ← lift (calculate_velocity (self_ env) dw vdw);
            _ ← velocity_setitem layer_num "dw" vdw';
            vdb ← velocity_getitem layer_num "db";
            vdb' ← lift (calculate_velocity (self_ env) db vdb);
            _ ← velocity_setitem layer_num "db" vdb';
            vdw'' ← velocity_getitem layer_num "dw";
            _ ← layer_isub_weight (layer_num + 1) (scale (learning_rate (self_ env)) vdw'');
            vdb'' ← velocity_getitem layer_num "db";
            _ ← layer_isub_bias (layer_num + 1) (scale (learning_rate (self_ env)) vdb'');
            mret (Some (da, loss))
        | WeightLayer weight =>
            z ← lift (dot weight a_prev);
            let m := ncols a_prev in
            r ← optimize_recursively y_true loss_fun fuel (layer_num + 1) z;
            '(dz, loss) ← unpack r;
            t ← lift (dot dz (transpose a_prev));
            let dw := div_int t m in
            da ← lift (dot (transpose weight) dz);
            _ ← velocities_getitem layer_num;
            vdw ← velocity_getitem layer_num "dw";
            vdw' ← lift (calculate_velocity (self_ env) dw vdw);
            _ ← velocity_setitem layer_num "dw" vdw';
            vdw'' ← velocity_getitem layer_num "dw";
            _ ← layer_isub_weight (layer_num + 1) (scale (learning_rate (self_ env)) vdw'');
            mret (Some (da, loss))
        | ActivationLayer fun_ =>
            let a := apply fun_ a_prev in
            r ← optimize_recursively y_true loss_fun fuel (layer_num + 1) a;
            '(da_next, loss) ← unpack r;
            (* [fun.apply_derivative(z)]: [z] is a local of the function with
               no value on this path *)
            raise UnboundLocalError
        | ReshapeLayer reshape =>
            let a := reshape a_prev in
            r ← optimize_recursively y_true loss_fun fuel (layer_num + 1) a;
            '(da_next, loss) ← unpack r;
            let dz := reshape da_next in
            mret (Some (dz, loss))
        | CompositeLayer _ => mret None
        end
  end.

(** [__optimize_deep(self, layers, x, y_true, loss_fun)]; the recursion is
    at most [len(layers)] calls deep. *)
Definition optimize_deep (x y_true : Array) (loss_fun : PyObj) : M Q :=
  env ← get_env;
  r ← optimize_recursively y_true loss_fun (S (length (layers env))) 0 x;
  '(_, loss) ← unpack r;
  mret loss.

(** The layer objects are shared between [layers] and [self.__target]:
    what the traversal did to them is what the target holds afterwards. *)
Definition rebuild (t : Layer) (ls : list Layer) : Layer :=
  match t with
  | CompositeLayer _ => CompositeLayer ls
  | _ => match ls with [l] => l | _ => t end
  end.

Definition run_on_target (t : Layer) (ls : list Layer) (m : M Q)
    (self : GradientDescentOptimizer)
    : option (res OptimalResult * GradientDescentOptimizer) :=
  match m (mkEnv ls self) with
  | None => None
  | Some (r, env') =>
      let t' := rebuild t (layers env') in
      let self' := set_target t' (self_ env') in
      Some (match r with
            | Ok loss => Ok (mkOptimalResult t' loss)
            | Err e => Err e
            end, self')
  end.

(** [optimize(self, epoch, x, y_true, loss)]. The first statement,
    [loss = 0], rebinds the parameter [loss]; the value handed to
    [__optimize_deep] as its [loss_fun] is that integer. *)
Definition optimize (epoch : Z) (x y_true : Array) (loss : LossFunction)
    (self : GradientDescentOptimizer)
    : option (res OptimalResult * GradientDescentOptimizer) :=
  let loss := PyInt 0 in
  match target self with
  | None => Some (Err AttributeError, self)
  | Some (CompositeLayer values as t) =>
      run_on_target t values (optimize_deep x y_true loss) self
  | Some it =>
      run_on_target it [it] (optimize_deep x y_true loss) self
  end.

(** Whether a layer graph holds a weighted layer, at any depth. *)
Fixpoint has_weighted (l : Layer) : bool :=
  match l with
  | WeightLayer _ | BiasedWeightLayer _ _ => true
  | ActivationLayer _ | ReshapeLayer _ => false
  | CompositeLayer values => existsb has_weighted values
  end.

(** The children of a composite, visited as the loop of
    [__init_velocity] visits them. *)
Fixpoint init_velocity_values (values : list Layer) (i : nat)
    (self : GradientDescentOptimizer) : res unit * GradientDescentOptimizer :=
  match values with
  | [] => (Ok tt, self)
  | v :: vs' =>
      match init_velocity v i self with
      | (Ok _, self') => init_velocity_values vs' (S i) self'
      | (Err e, self') => (Err e, self')
      end
  end.

(** Induction over layer graphs, with the children of a composite. *)
Fixpoint Layer_nested_ind (P : Layer -> Prop)
    (HW : forall w, P (WeightLayer w))
    (HB : forall w b, P (BiasedWeightLayer w b))
    (HA : forall f, P (ActivationLayer f))
    (HR : forall f, P (ReshapeLayer f))
    (HC : forall values, Forall P values -> P (CompositeLayer values))
    (l : Layer) {struct l} : P l :=
  match l with
  | WeightLayer w => HW w
  | BiasedWeightLayer w b => HB w b
  | ActivationLayer f => HA f
  | ReshapeLayer f => HR f
  | CompositeLayer values =>
      HC values
        ((fix go (vs : list Layer) : Forall P vs :=
            match vs with
            | [] => @List.Forall_nil _ P
            | v :: vs' => @List.Forall_cons _ P v vs' (Layer_nested_ind P HW HB HA HR HC v) (go vs')
            end) values)
  end.

(** ** Outcomes of a traversal step *)

(** A computation that raises without having changed anything. *)
Definition fails {A} (m : M A) (env : Env) : Prop :=
  exists e, m env = Some (Err e, env).

(** A traversal step that raises, or falls out of its [match] with [None],
    without having changed anything. *)
Definition stuck (m : M (option (Array * Q))) (env : Env) : Prop :=
  fails m env \/ m env = Some (Ok None, env).

(** ** The scenario of section 8 and other concrete inputs *)

Definition scenario_W : Array := of_rows [[2%Q]].
Definition scenario_x : Array := of_rows [[3%Q]].
Definition scenario_y_true : Array := of_rows [[0%Q]].
Definition scenario_b : Array := of_rows [[1%Q]].

(** [GradientDescentOptimizer(0.1)], momentum left at its default 0. *)
Definition scenario_optimizer : GradientDescentOptimizer := init (1 # 10) 0.

(** The optimizer after [prepare] has stored the target [t]. *)
Definition with_target (t : Layer) : GradientDescentOptimizer :=
  set_target t scenario_optimizer.

(** A flat composite with both kinds of weighted layer. *)
Definition three_layers : Layer :=
  CompositeLayer [BiasedWeightLayer scenario_W scenario_b;
                  ActivationLayer RELU_ACTIVATION;
                  WeightLayer scenario_W].

(** A two by two array with entries of both signs, and a gradient and a
    velocity of its shape. *)
Definition sample_z : Array := of_rows [[(-1)%Q; 2%Q]; [0%Q; 3%Q]].
Definition sample_d : Array := of_rows [[4%Q; 8%Q]; [(-2)%Q; 6%Q]].
Definition sample_v : Array := of_rows [[2%Q; 0%Q]; [2%Q; 10%Q]].

(** A row of three entries. *)
Definition sample_row : Array := of_rows [[1%Q; 2%Q; 3%Q]].

(** ** Kinds of layers and of exceptions *)

Definition is_composite (l : Layer) : bool :=
  match l with CompositeLayer _ => true | _ => false end.

(** The layers without parameters. *)
Definition is_stateless (l : Layer) : bool :=
  match l with ActivationLayer _ | ReshapeLayer _ => true | _ => false end.

(** The dictionary [__init_velocity] builds for a weighted layer. *)
Definition velocity_entry (l : Layer) : option (gmap string Array) :=
  match l with
  | BiasedWeightLayer weight bias =>
      Some (<["dw" := zeros (shape weight)]> (<["db" := zeros (shape bias)]> ∅))
  | WeightLayer weight => Some (<["dw" := zeros (shape weight)]> ∅)
  | _ => None
  end.

(** The exceptions of the subscript, of numpy and of the unpacking. *)
Definition traversal_exn (e : exn) : Prop :=
  e = IndexError \/ e = ValueError \/ e = TypeError.

(** [fails] and [stuck] with the exception in a given class. *)
Definition fails_with {A} (P : exn -> Prop) (m : M A) (env : Env) : Prop :=
  exists e, P e /\ m env = Some (Err e, env).

Definition stuck_with (P : exn -> Prop) (m : M (option (Array * Q))) (env : Env) : Prop :=
  fails_with P m env \/ m env = Some (Ok None, env).

(** Two computations that raise the same exception, each without having
    changed its environment; two steps that do, or both fall out of their
    [match]. *)
Definition same_outcome {A} (m1 m2 : M A) (env1 env2 : Env) : Prop :=
  exists e, m1 env1 = Some (Err e, env1) /\ m2 env2 = Some (Err e, env2).

Definition same_step (m1 m2 : M (option (Array * Q))) (env1 env2 : Env) : Prop :=
  same_outcome m1 m2 env1 env2 \/
  (m1 env1 = Some (Ok None, env1) /\ m2 env2 = Some (Ok None, env2)).

(** ** Sequences of calls *)

(** The two public methods, as a caller invokes them. *)
Inductive call : Type :=
| CallPrepare (params_supplier : unit -> Layer)
| CallOptimize (epoch : Z) (x y_true : Array) (loss : LossFunction).

(** The optimizer after one call, whether the call returned or raised. *)
Definition run_call (c : call) (self : GradientDescentOptimizer)
    : option GradientDescentOptimizer :=
  match c with
  | CallPrepare params_supplier => Some (snd (prepare params_supplier self))
  | CallOptimize epoch x y_true loss => snd <$> optimize epoch x y_true loss self
  end.

Fixpoint run_calls (cs : list call) (self : GradientDescentOptimizer)
    : option GradientDescentOptimizer :=
  match cs with
  | [] => Some self
  | c :: cs' =>
      match run_call c self with
      | Some self' => run_calls cs' self'
      | None => None
      end
  end.

(** * Properties *)

(** ** Arrays *)

Section ArrayFacts.

Lemma nth_flat_map_rows (c : nat) (g : nat -> nat -> Q) (r s i j : nat) :
  i < r -> j < c ->
  nth (i * c + j) (flat_map (fun k => map (g k) (seq 0 c)) (seq s r)) 0%Q = g (s + i) j.
Proof.
  revert s i. induction r as [|r IH]; intros s i Hi Hj; [lia|].
  cbn [seq flat_map]. destruct i as [|i].
  - rewrite List.app_nth1 by (rewrite length_map, length_seq; lia).
    cbn [Nat.mul Nat.add].
    rewrite (List.nth_indep _ 0%Q (g s 0)) by (rewrite length_map, length_seq; lia).
    rewrite List.map_nth, List.seq_nth by lia.
    f_equal; lia.
  - rewrite List.app_nth2 by (rewrite length_map, length_seq; lia).
    rewrite length_map, length_seq.
    replace (S i * c + j - c) with (i * c + j) by lia.
    rewrite IH by lia. f_equal; lia.
Qed.

Lemma get_tabulate (r c : nat) (f : nat -> nat -> Q) (i j : nat) :
  i < r -> j < c -> get (tabulate r c f) i j = f i j.
Proof.
  intros Hi Hj. unfold get, tabulate. cbn [ncols data].
  apply (nth_flat_map_rows c f r 0 i j Hi Hj).
Qed.

Lemma bget_in_range (a : Array) (i j : nat) :
  i < nrows a -> j < ncols a -> bget a i j = get a i j.
Proof.
  intros Hi Hj. unfold bget.
  destruct (Nat.eqb_spec (nrows a) 1), (Nat.eqb_spec (ncols a) 1);
    f_equal; lia.
Qed.

Lemma bdim_same (n : nat) : bdim n n = Some n.
Proof. unfold bdim. now rewrite Nat.eqb_refl. Qed.

Lemma elementwise_same_shape (op : Q -> Q -> Q) (a b : Array) :
  shape a = shape b ->
  elementwise op a b =
  Ok (tabulate (nrows a) (ncols a) (fun i j => op (bget a i j) (bget b i j))).
Proof.
  unfold shape, elementwise. intros [= <- <-]. now rewrite !bdim_same.
Qed.

Lemma shape_tabulate (r c : nat) (f : nat -> nat -> Q) : shape (tabulate r c f) = (r, c).
Proof. reflexivity. Qed.

Lemma shape_scale (c : Q) (a : Array) : shape (scale c a) = shape a.
Proof. reflexivity. Qed.

Lemma get_scale (c : Q) (a : Array) (i j : nat) :
  i < nrows a -> j < ncols a -> get (scale c a) i j = (c * get a i j)%Q.
Proof. intros. unfold scale. now rewrite get_tabulate. Qed.

Lemma get_zeros (s : nat * nat) (i j : nat) :
  i < fst s -> j < snd s -> get (zeros s) i j = 0%Q.
Proof. intros. unfold zeros. now rewrite get_tabulate. Qed.

End ArrayFacts.

(** ** The velocity update *)

Section Velocity.

Variable self : GradientDescentOptimizer.

(** On a gradient and a velocity of one shape the update succeeds, and
    entry by entry it is [momentum * v + (1 - momentum) * d]. *)
Lemma calculate_velocity_same_shape (d d_velocity : Array) :
  shape d_velocity = shape d ->
  exists v,
    calculate_velocity self d d_velocity = Ok v /\
    shape v = shape d /\
    forall i j, i < nrows d -> j < ncols d ->
      get v i j = (momentum self * get d_velocity i j + (1 - momentum self) * get d i j)%Q.
Proof.
  intros Hs. unfold calculate_velocity, add.
  rewrite elementwise_same_shape by (now rewrite !shape_scale).
  eexists. split; [reflexivity|]. split.
  - rewrite shape_tabulate. exact Hs.
  - intros i j Hi Hj.
    assert (nrows d_velocity = nrows d /\ ncols d_velocity = ncols d) as [Hr Hc]
      by (unfold shape in Hs; split; congruence).
    cbn [nrows ncols scale tabulate] in *.
    change (nrows (scale (momentum self) d_velocity)) with (nrows d_velocity).
    change (ncols (scale (momentum self) d_velocity)) with (ncols d_velocity).
    rewrite get_tabulate by lia.
    rewrite !bget_in_range by (cbn; lia).
    rewrite !get_scale by lia. reflexivity.
Qed.

(** [w -= delta] on arrays of one shape: the entrywise difference. *)
Lemma isub_same_shape (w delta : Array) :
  shape delta = shape w ->
  exists w',
    isub w delta = Ok w' /\
    shape w' = shape w /\
    forall i j, i < nrows w -> j < ncols w ->
      get w' i j = (get w i j - get delta i j)%Q.
Proof.
  intros Hs. unfold isub.
  rewrite elementwise_same_shape by (now symmetry).
  rewrite shape_tabulate. change (nrows w, ncols w) with (shape w).
  rewrite decide_True by reflexivity.
  eexists. split; [reflexivity|]. split; [reflexivity|].
  intros i j Hi Hj.
  assert (nrows delta = nrows w /\ ncols delta = ncols w) as [Hr Hc]
    by (unfold shape in Hs; split; congruence).
  rewrite get_tabulate by lia.
  now rewrite !bget_in_range by lia.
Qed.

End Velocity.

(** ** The traversal never returns from a layer *)

Section Traversal.

Lemma bind_ok {A B} (m : M A) (f : A -> M B) (env env' : Env) (a : A) :
  m env = Some (Ok a, env') -> (m ≫= f) env = f a env'.
Proof. intros H. unfold mbind, M_bind. now rewrite H. Qed.

Lemma bind_err {A B} (m : M A) (f : A -> M B) (env env' : Env) (e : exn) :
  m env = Some (Err e, env') -> (m ≫= f) env = Some (Err e, env').
Proof. intros H. unfold mbind, M_bind. now rewrite H. Qed.

Lemma fails_bind {A B} (m : M A) (f : A -> M B) (env : Env) :
  fails m env -> fails (m ≫= f) env.
Proof. intros [e H]. exists e. now apply bind_err. Qed.

Lemma fails_lift_bind {A B} (r : res A) (f : A -> M B) (env : Env) :
  (forall a, r = Ok a -> fails (f a) env) -> fails (lift r ≫= f) env.
Proof.
  intros H. destruct r as [a|e].
  - destruct (H a eq_refl) as [e He]. exists e.
    now rewrite (bind_ok _ _ env env a).
  - exists e. now apply bind_err.
Qed.

(** The caller of a stuck step raises: the exception propagates, or the
    unpacking of [None] raises [TypeError]. *)
Lemma stuck_unpack {B} (m : M (option (Array * Q)))
    (k : Array * Q -> M B) (env : Env) :
  stuck m env -> fails (r ← m; p ← unpack r; k p) env.
Proof.
  intros [Hf | Hn].
  - now apply fails_bind.
  - exists TypeError. now rewrite (bind_ok _ _ env env None).
Qed.

Lemma stuck_get_env (f : Env -> M (option (Array * Q))) (env : Env) :
  stuck (f env) env -> stuck (get_env ≫= f) env.
Proof.
  unfold stuck, fails. now rewrite (bind_ok get_env f env env env).
Qed.

Lemma stuck_layers_getitem (i : nat) (f : Layer -> M (option (Array * Q))) (env : Env) :
  (forall it, layers env !! i = Some it -> stuck (f it) env) ->
  stuck (layers_getitem i ≫= f) env.
Proof.
  intros H. unfold stuck, fails.
  destruct (layers env !! i) as [it|] eqn:Hit.
  - rewrite (bind_ok (layers_getitem i) f env env it)
      by (unfold layers_getitem; now rewrite Hit).
    now apply H.
  - left. exists IndexError. apply bind_err.
    unfold layers_getitem. now rewrite Hit.
Qed.

Variables (y_true : Array) (loss_fun : PyObj).

(** At a position inside the list the step is stuck, however much fuel
    beyond the remaining positions it is given. *)
Lemma optimize_recursively_stuck (fuel layer_num : nat) (a_prev : Array) (env : Env) :
  layer_num < length (layers env) ->
  length (layers env) - layer_num <= fuel ->
  stuck (optimize_recursively y_true loss_fun fuel layer_num a_prev) env.
Proof.
  revert layer_num a_prev.
  induction fuel as [|fuel IH]; intros layer_num a_prev Hlt Hfuel; [lia|].
  cbn [optimize_recursively].
  apply stuck_get_env. rewrite decide_False by lia.
  apply stuck_layers_getitem. intros it Hit.
  apply lookup_lt_Some in Hit.
  assert (Hrec : forall a, stuck (optimize_recursively y_true loss_fun fuel (layer_num + 1) a) env)
    by (intros a; apply IH; lia).
  destruct it as [weight | weight bias | fun_ | reshape | values].
  - left. apply fails_lift_bind; intros z _. now apply stuck_unpack.
  - left. apply fails_lift_bind; intros wa _.
    apply fails_lift_bind; intros z _. now apply stuck_unpack.
  - left. now apply stuck_unpack.
  - left. now apply stuck_unpack.
  - now right.
Qed.

(** With the fuel [__optimize_deep] provides, the recursion does not run
    out of fuel. *)
Lemma optimize_recursively_enough_fuel (a_prev : Array) (env : Env) :
  exists r env',
    optimize_recursively y_true loss_fun (S (length (layers env))) 0 a_prev env
    = Some (r, env').
Proof.
  destruct (layers env) as [|l ls] eqn:Hl.
  - cbn [optimize_recursively].
    rewrite (bind_ok get_env _ env env env) by reflexivity.
    rewrite Hl. cbn [length]. rewrite decide_True by lia.
    destruct loss_fun; eexists _, _; reflexivity.
  - destruct (optimize_recursively_stuck (S (length (l :: ls))) 0 a_prev env) as [[e H]|H];
      [rewrite Hl; cbn; lia | rewrite Hl; cbn; lia | |]; eexists _, _; exact H.
Qed.

(** Over a list with at least one layer [__optimize_deep] raises, and no
    layer and no velocity has been touched. *)
Lemma optimize_deep_raises (x : Array) (env : Env) :
  layers env <> [] -> fails (optimize_deep x y_true loss_fun) env.
Proof.
  intros Hne. unfold optimize_deep.
  destruct (bind_ok get_env
              (fun env0 => r ← optimize_recursively y_true loss_fun
                                 (S (length (layers env0))) 0 x;
                           '(_, loss) ← unpack r; mret loss) env env env eq_refl).
  apply stuck_unpack. apply optimize_recursively_stuck.
  - destruct (layers env); [congruence | cbn; lia].
  - lia.
Qed.

(** Over the empty list the base case is reached at once: it needs the
    methods of [loss_fun]. *)
Lemma optimize_deep_empty (x : Array) (env : Env) :
  layers env = [] ->
  optimize_deep x y_true loss_fun env =
  match loss_fun with
  | PyInt _ => Some (Err AttributeError, env)
  | PyLossFunction f => Some (Ok (loss_apply f y_true x), env)
  end.
Proof.
  intros Hl. unfold optimize_deep.
  rewrite (bind_ok get_env _ env env env) by reflexivity.
  rewrite Hl. cbn [length optimize_recursively].
  unfold mbind at 1, M_bind at 1.
  rewrite (bind_ok get_env _ env env env) by reflexivity.
  rewrite Hl. cbn [length]. rewrite decide_True by lia.
  destruct loss_fun; reflexivity.
Qed.

End Traversal.

(** ** [optimize] and [prepare] on every state *)

Section Optimizer.

Lemma set_target_same (self : GradientDescentOptimizer) (t : Layer) :
  target self = Some t -> set_target t self = self.
Proof. destruct self; cbn; now intros ->. Qed.

Lemma run_on_target_fails (t : Layer) (ls : list Layer) (m : M Q)
    (self : GradientDescentOptimizer) :
  target self = Some t -> rebuild t ls = t ->
  fails m (mkEnv ls self) ->
  exists e, run_on_target t ls m self = Some (Err e, self).
Proof.
  intros Ht Hr [e He]. exists e. unfold run_on_target. rewrite He.
  cbn [layers self_]. now rewrite Hr, set_target_same.
Qed.

(** [optimize] raises on every optimizer and every input, and leaves the
    optimizer as it was. *)
Lemma optimize_raises (self : GradientDescentOptimizer) (epoch : Z)
    (x y_true : Array) (f : LossFunction) :
  exists e, optimize epoch x y_true f self = Some (Err e, self).
Proof.
  unfold optimize. destruct (target self) as [t|] eqn:Ht; [|now exists AttributeError].
  destruct t as [w | w b | g | g | values];
    try (apply run_on_target_fails; [assumption | reflexivity |];
         apply optimize_deep_raises; discriminate).
  apply run_on_target_fails; [assumption | reflexivity |].
  destruct values as [|v vs].
  - exists AttributeError. now rewrite optimize_deep_empty.
  - apply optimize_deep_raises. discriminate.
Qed.

(** The loss function given to [optimize] has no part in its outcome. *)
Lemma optimize_ignores_loss (self : GradientDescentOptimizer) (epoch : Z)
    (x y_true : Array) (f g : LossFunction) :
  optimize epoch x y_true f self = optimize epoch x y_true g self.
Proof. reflexivity. Qed.

Lemma init_velocity_composite (values : list Layer) (id : nat)
    (self : GradientDescentOptimizer) :
  init_velocity (CompositeLayer values) id self = init_velocity_values values 0 self.
Proof.
  cbn [init_velocity]. generalize 0 as i. revert self.
  induction values as [|v vs IH]; intros self i; [reflexivity|].
  cbn [init_velocity_values]. destruct (init_velocity v i self) as [[[]|e] self'];
    [apply IH | reflexivity].
Qed.

(** Without a velocity mapping, [__init_velocity] raises at the first
    weighted layer it meets and completes when there is none. *)
Lemma init_velocity_no_store (l : Layer) :
  forall (id : nat) (self : GradientDescentOptimizer),
    velocities self = None ->
    init_velocity l id self =
    (if has_weighted l then Err AttributeError else Ok tt, self).
Proof.
  induction l as [w | w b | f | f | values IH] using Layer_nested_ind;
    intros id self Hv;
    try (cbn [init_velocity has_weighted]; unfold velocities_setitem;
         now rewrite ?Hv).
  rewrite init_velocity_composite. cbn [has_weighted].
  generalize 0 as i.
  induction IH as [|v vs Hhd _ IHtl]; intros i; [reflexivity|].
  cbn [init_velocity_values existsb]. rewrite (Hhd i self Hv).
  destruct (has_weighted v); [reflexivity | apply IHtl].
Qed.

(** On an optimizer without a velocity mapping [prepare] stores the target
    and creates no mapping. *)
Lemma prepare_no_store (supplier : unit -> Layer) (self : GradientDescentOptimizer) :
  velocities self = None ->
  prepare supplier self =
  (if has_weighted (supplier tt) then Err AttributeError else Ok tt,
   set_target (supplier tt) self).
Proof.
  intros Hv. unfold prepare. cbn [target set_target].
  now apply init_velocity_no_store.
Qed.

End Optimizer.

(** ** The claims *)

(** The loss of the scenario: on the forward value 6 against the target 0
    it is 36, with derivative 12. *)
Example MSE_LOSS_scenario :
  loss_apply MSE_LOSS scenario_y_true (of_rows [[6%Q]]) = 36%Q /\
  loss_apply_derivative MSE_LOSS scenario_y_true (of_rows [[6%Q]]) = of_rows [[12%Q]].
Proof. split; reflexivity. Qed.

(** C1. The scenario of section 8 (one [WeightLayer] with [W = [[2]]],
    [x = [[3]]], [y_true = [[0]]], mean squared error, learning rate 0.1,
    momentum 0) does not return loss 36 and does not move the weight:
    [prepare] raises [AttributeError] after storing the target, and
    [optimize] on that optimizer raises [IndexError] and leaves the weight
    at 2; [optimize] raises [IndexError] as well when the optimizer is
    handed the zero velocity that [prepare] was to create. *)
Theorem C1_scenario_raises :
  prepare (fun _ => WeightLayer scenario_W) scenario_optimizer
    = (Err AttributeError, with_target (WeightLayer scenario_W)) /\
  optimize 1 scenario_x scenario_y_true MSE_LOSS (with_target (WeightLayer scenario_W))
    = Some (Err IndexError, with_target (WeightLayer scenario_W)) /\
  (let prepared :=
     set_velocities (<[0 := <["dw" := zeros (shape scenario_W)]> ∅]> ∅)
                    (with_target (WeightLayer scenario_W)) in
   optimize 1 scenario_x scenario_y_true MSE_LOSS prepared
     = Some (Err IndexError, prepared)).
Proof. repeat split; reflexivity. Qed.

(** C2. [optimize] does not use the loss function of its caller: on the
    prepared empty composite, where the base case is reached at once, it
    raises [AttributeError], because the value it passes on as [loss_fun]
    is the integer 0; [__optimize_deep] given the loss function itself
    returns [f.apply(y_true, x)], here 36. *)
Theorem C2_optimize_passes_zero_as_loss_function :
  prepare (fun _ => CompositeLayer []) scenario_optimizer
    = (Ok tt, with_target (CompositeLayer [])) /\
  optimize 1 (of_rows [[6%Q]]) scenario_y_true MSE_LOSS (with_target (CompositeLayer []))
    = Some (Err AttributeError, with_target (CompositeLayer [])) /\
  optimize_deep (of_rows [[6%Q]]) scenario_y_true (PyLossFunction MSE_LOSS)
                (mkEnv [] (with_target (CompositeLayer [])))
    = Some (Ok 36%Q, mkEnv [] (with_target (CompositeLayer []))).
Proof. repeat split; reflexivity. Qed.

(** C3. The traversal and the initialization do not index alike. Given a
    velocity mapping, [__init_velocity] stores the velocity of the weighted
    layer at position 1 under key 1. The traversal at position 0 applies
    the layer at position 1, whatever the layer at position 0 is, and at
    position 1 it raises [IndexError]; no velocity entry is read or
    written. *)
Theorem C3_traversal_reads_the_next_layer :
  init_velocity (CompositeLayer [ActivationLayer LINEAR_ACTIVATION; WeightLayer scenario_W])
                0 (set_velocities ∅ scenario_optimizer)
    = (Ok tt,
       set_velocities (<[1 := <["dw" := zeros (shape scenario_W)]> ∅]> ∅) scenario_optimizer) /\
  forall (first : Layer) (loss_fun : PyObj) (self : GradientDescentOptimizer),
    optimize_deep scenario_x scenario_y_true loss_fun
                  (mkEnv [first; WeightLayer scenario_W] self)
      = Some (Err IndexError, mkEnv [first; WeightLayer scenario_W] self).
Proof. split; [reflexivity | intros; reflexivity]. Qed.

(** C4. An activation layer is not differentiated: over the composite of
    two activation layers the function of the second is applied at position
    0, the step at position 1 raises [IndexError], and the product with the
    derivative is never formed; a bare activation layer as target raises
    [IndexError] before its function is applied. This holds for every
    activation function. *)
Theorem C4_activation_step_raises :
  forall (f g : ActivationFunction) (x : Array),
    optimize 1 x scenario_y_true MSE_LOSS
             (with_target (CompositeLayer [ActivationLayer f; ActivationLayer g]))
      = Some (Err IndexError,
              with_target (CompositeLayer [ActivationLayer f; ActivationLayer g])) /\
    optimize 1 x scenario_y_true MSE_LOSS (with_target (ActivationLayer f))
      = Some (Err IndexError, with_target (ActivationLayer f)).
Proof. intros; split; reflexivity. Qed.

(** C5. [prepare] on a new optimizer does not fill a velocity store for a
    graph with weighted layers: it raises [AttributeError] at the first of
    them, and the optimizer is left with the target and no velocity
    mapping. Given an empty mapping to write to, [__init_velocity] stores
    the zero arrays under the positions of the two weighted layers. *)
Theorem C5_prepare_raises_on_weighted_graph :
  prepare (fun _ => three_layers) scenario_optimizer
    = (Err AttributeError, with_target three_layers) /\
  velocities (with_target three_layers) = None /\
  init_velocity three_layers 0 (set_velocities ∅ scenario_optimizer)
    = (Ok tt,
       set_velocities
         (<[2 := <["dw" := zeros (shape scenario_W)]> ∅]>
            (<[0 := <["dw" := zeros (shape scenario_W)]>
                      (<["db" := zeros (shape scenario_b)]> ∅)]> ∅))
         scenario_optimizer).
Proof. repeat split; reflexivity. Qed.

(** C6. A second [prepare] replaces the target and leaves no velocity
    store: after a first [prepare] with an activation layer, which
    completes, the second with a weighted layer raises [AttributeError]. *)
Theorem C6_second_prepare_raises :
  prepare (fun _ => ActivationLayer LINEAR_ACTIVATION) scenario_optimizer
    = (Ok tt, with_target (ActivationLayer LINEAR_ACTIVATION)) /\
  prepare (fun _ => WeightLayer scenario_W) (with_target (ActivationLayer LINEAR_ACTIVATION))
    = (Err AttributeError, with_target (WeightLayer scenario_W)) /\
  velocities (with_target (WeightLayer scenario_W)) = None.
Proof. repeat split; reflexivity. Qed.

(** C7. With momentum 0, on a gradient [d] and a previous velocity
    [v_old] of the shape of [d], the velocity update returns [d]; the
    weight update [W -= learning_rate * v] on a weight of that shape is then
    [W - learning_rate * d], entry by entry. *)
Theorem C7_zero_momentum_is_plain_gradient_descent
    (self : GradientDescentOptimizer) (d v_old W : Array) :
  (momentum self == 0)%Q ->
  shape v_old = shape d ->
  shape W = shape d ->
  exists v W_new,
    calculate_velocity self d v_old = Ok v /\
    array_eq v d /\
    isub W (scale (learning_rate self) v) = Ok W_new /\
    shape W_new = shape W /\
    forall i j, i < nrows W -> j < ncols W ->
      (get W_new i j == get W i j - learning_rate self * get d i j)%Q.
Proof.
  intros Hm Hv HW.
  destruct (calculate_velocity_same_shape self d v_old Hv) as (v & Hcalc & Hsv & Hget).
  destruct (isub_same_shape W (scale (learning_rate self) v)) as (W' & Hsub & HsW & HgetW).
  { rewrite shape_scale. congruence. }
  assert (nrows W = nrows d /\ ncols W = ncols d) as [Hr Hc]
    by (unfold shape in HW; split; congruence).
  assert (nrows v = nrows d /\ ncols v = ncols d) as [Hrv Hcv]
    by (unfold shape in Hsv; split; congruence).
  exists v, W'. repeat split; try assumption.
  - intros i j Hi Hj. rewrite Hget by lia. rewrite Hm. ring.
  - intros i j Hi Hj. rewrite HgetW by assumption.
    rewrite get_scale by lia. rewrite Hget by lia. rewrite Hm. ring.
Qed.

Lemma C7_zero_momentum_witness :
  ((momentum scenario_optimizer == 0)%Q /\
   shape (zeros (1, 1)) = shape (of_rows [[36%Q]]) /\
   shape scenario_W = shape (of_rows [[36%Q]])) /\
  exists v W_new,
    calculate_velocity scenario_optimizer (of_rows [[36%Q]]) (zeros (1, 1)) = Ok v /\
    array_eq v (of_rows [[36%Q]]) /\
    isub scenario_W (scale (learning_rate scenario_optimizer) v) = Ok W_new /\
    shape W_new = shape scenario_W /\
    forall i j, i < nrows scenario_W -> j < ncols scenario_W ->
      (get W_new i j
       == get scenario_W i j - learning_rate scenario_optimizer * get (of_rows [[36%Q]]) i j)%Q.
Proof.
  split; [repeat split; reflexivity|].
  apply (C7_zero_momentum_is_plain_gradient_descent
           scenario_optimizer (of_rows [[36%Q]]) (zeros (1, 1)) scenario_W);
    reflexivity.
Defined.

(** C8. With momentum [beta] strictly between 0 and 1, two velocity
    updates from the zero velocity, with gradients [dW1] and then [dW2] of
    one shape, give [beta (1 - beta) dW1 + (1 - beta) dW2], entry by
    entry. *)
Theorem C8_two_steps_of_momentum
    (self : GradientDescentOptimizer) (beta : Q) (dW1 dW2 : Array) :
  momentum self = beta ->
  (0 < beta)%Q -> (beta < 1)%Q ->
  shape dW1 = shape dW2 ->
  exists v1 v2,
    calculate_velocity self dW1 (zeros (shape dW1)) = Ok v1 /\
    calculate_velocity self dW2 v1 = Ok v2 /\
    shape v2 = shape dW2 /\
    forall i j, i < nrows dW2 -> j < ncols dW2 ->
      (get v2 i j == beta * (1 - beta) * get dW1 i j + (1 - beta) * get dW2 i j)%Q.
Proof.
  intros Hb _ _ Hs.
  destruct (calculate_velocity_same_shape self dW1 (zeros (shape dW1)) eq_refl)
    as (v1 & Hc1 & Hs1 & Hg1).
  destruct (calculate_velocity_same_shape self dW2 v1) as (v2 & Hc2 & Hs2 & Hg2);
    [congruence|].
  assert (nrows dW1 = nrows dW2 /\ ncols dW1 = ncols dW2) as [Hr Hc]
    by (unfold shape in Hs; split; congruence).
  exists v1, v2. repeat split; try assumption.
  intros i j Hi Hj.
  rewrite Hg2 by assumption. rewrite Hg1 by lia.
  rewrite get_zeros by (cbn; lia). rewrite Hb. ring.
Qed.

Lemma C8_two_steps_witness :
  (momentum (init (1 # 10) (1 # 2)) = 1 # 2 /\
   (0 < 1 # 2)%Q /\ (1 # 2 < 1)%Q /\
   shape (of_rows [[36%Q]]) = shape (of_rows [[8%Q]])) /\
  exists v1 v2,
    calculate_velocity (init (1 # 10) (1 # 2)) (of_rows [[36%Q]])
                       (zeros (shape (of_rows [[36%Q]]))) = Ok v1 /\
    calculate_velocity (init (1 # 10) (1 # 2)) (of_rows [[8%Q]]) v1 = Ok v2 /\
    shape v2 = shape (of_rows [[8%Q]]) /\
    forall i j, i < nrows (of_rows [[8%Q]]) -> j < ncols (of_rows [[8%Q]]) ->
      (get v2 i j
       == (1 # 2) * (1 - (1 # 2)) * get (of_rows [[36%Q]]) i j
          + (1 - (1 # 2)) * get (of_rows [[8%Q]]) i j)%Q.
Proof.
  split; [repeat split; reflexivity|].
  apply (C8_two_steps_of_momentum (init (1 # 10) (1 # 2)) (1 # 2)
           (of_rows [[36%Q]]) (of_rows [[8%Q]]));
    reflexivity.
Defined.

(** C9. The epoch has no part in [optimize]: with the same optimizer,
    input, labels and loss function, two epochs give the same outcome and
    the same optimizer afterwards. *)
Theorem C9_epoch_is_not_used
    (self : GradientDescentOptimizer) (e1 e2 : Z) (x y_true : Array) (f : LossFunction) :
  optimize e1 x y_true f self = optimize e2 x y_true f self.
Proof. reflexivity. Qed.

(** C10. On a newly constructed optimizer, [prepare] with a supplier
    whose graph holds a [WeightLayer] or a [BiasedWeightLayer] raises
    [AttributeError]: the velocity mapping is written to and was never
    created. The target has been stored by then. *)
Theorem C10_first_prepare_raises
    (supplier : unit -> Layer) (learning_rate momentum : Q) :
  has_weighted (supplier tt) = true ->
  prepare supplier (init learning_rate momentum)
  = (Err AttributeError, set_target (supplier tt) (init learning_rate momentum)).
Proof.
  intros Hw. rewrite prepare_no_store by reflexivity. now rewrite Hw.
Qed.

Lemma C10_first_prepare_witness :
  has_weighted three_layers = true /\
  prepare (fun _ => three_layers) (init (1 # 10) 0)
  = (Err AttributeError, set_target three_layers (init (1 # 10) 0)).
Proof.
  split; [reflexivity|].
  apply (C10_first_prepare_raises (fun _ => three_layers) (1 # 10) 0).
  reflexivity.
Defined.

(** Were a velocity mapping present, [prepare] would add to it and would
    not clear it: an entry under a key the new graph does not use stays. *)
Example prepare_keeps_old_entries :
  prepare (fun _ => ActivationLayer LINEAR_ACTIVATION)
          (set_velocities (<[7 := ∅]> ∅) scenario_optimizer)
  = (Ok tt, set_velocities (<[7 := ∅]> ∅) (with_target (ActivationLayer LINEAR_ACTIVATION))).
Proof. reflexivity. Qed.

(** * Further properties of the code *)

(** ** The activation functions *)

Section Activations.

Lemma tabulate_ext (r c : nat) (f g : nat -> nat -> Q) :
  (forall i j, i < r -> j < c -> f i j = g i j) -> tabulate r c f = tabulate r c g.
Proof.
  intros H. unfold tabulate. f_equal.
  rewrite !List.flat_map_concat_map. f_equal.
  apply List.map_ext_in. intros i Hi. apply List.in_seq in Hi.
  apply List.map_ext_in. intros j Hj. apply List.in_seq in Hj.
  apply H; lia.
Qed.

Lemma get_gt0 (z : Array) (i j : nat) :
  i < nrows z -> j < ncols z ->
  get (gt0 z) i j = if Qlt_le_dec 0 (get z i j) then 1%Q else 0%Q.
Proof. intros. unfold gt0. now rewrite get_tabulate. Qed.

Lemma get_relu (z : Array) (i j : nat) :
  i < nrows z -> j < ncols z ->
  get (apply RELU_ACTIVATION z) i j
  = ((if Qlt_le_dec 0 (get z i j) then 1 else 0) * get z i j)%Q.
Proof.
  intros. cbn [apply RELU_ACTIVATION]. rewrite get_tabulate by assumption.
  now rewrite get_gt0.
Qed.

End Activations.


(** X2. The expression [(z > 0) * z] of [Relu.apply] never raises: both
    factors have the shape of [z], and the product is the array [apply]
    returns. *)
Theorem X2_relu_product_never_raises (z : Array) :
  mul (gt0 z) z = Ok (apply RELU_ACTIVATION z).
Proof.
  unfold mul. rewrite elementwise_same_shape by reflexivity.
  f_equal. cbn [apply RELU_ACTIVATION]. apply tabulate_ext.
  intros i j Hi Hj. cbn [nrows ncols gt0 tabulate] in *.
  now rewrite !bget_in_range by (cbn; lia).
Qed.

(** X3. [Relu.apply] is idempotent: applying it to its own output changes
    no entry. *)
Theorem X3_relu_idempotent (z : Array) :
  array_eq (apply RELU_ACTIVATION (apply RELU_ACTIVATION z)) (apply RELU_ACTIVATION z).
Proof.
  split; [reflexivity|]. intros i j Hi Hj.
  change (nrows (apply RELU_ACTIVATION (apply RELU_ACTIVATION z))) with (nrows z) in Hi.
  change (ncols (apply RELU_ACTIVATION (apply RELU_ACTIVATION z))) with (ncols z) in Hj.
  rewrite (get_relu (apply RELU_ACTIVATION z)) by assumption.
  rewrite get_relu by assumption.
  destruct (Qlt_le_dec 0 (get z i j)) as [Hpos|Hneg];
    destruct (Qlt_le_dec 0 _) as [H1|H1]; lra.
Qed.

(** X4. [Relu.apply_derivative] keeps the shape, has entries 0 and 1 only,
    1 exactly at the entries above 0, and gives the same array at the
    output of [apply] as at its input. *)
Theorem X4_relu_derivative (z : Array) :
  shape (apply_derivative RELU_ACTIVATION z) = shape z /\
  forall i j, i < nrows z -> j < ncols z ->
    ((0 < get z i j)%Q -> get (apply_derivative RELU_ACTIVATION z) i j = 1%Q) /\
    ((get z i j <= 0)%Q -> get (apply_derivative RELU_ACTIVATION z) i j = 0%Q) /\
    get (apply_derivative RELU_ACTIVATION (apply RELU_ACTIVATION z)) i j
    = get (apply_derivative RELU_ACTIVATION z) i j.
Proof.
  split; [reflexivity|]. intros i j Hi Hj. cbn [apply_derivative RELU_ACTIVATION].
  rewrite (get_gt0 (apply RELU_ACTIVATION z)) by assumption.
  rewrite get_gt0 by assumption. rewrite get_relu by assumption.
  destruct (Qlt_le_dec 0 (get z i j)) as [Hpos|Hneg]; repeat split; intros;
    try reflexivity; try lra;
    destruct (Qlt_le_dec 0 _) as [H1|H1]; try reflexivity; lra.
Qed.

(** X5. The derivative of [Linear] is the array of ones of the shape of
    its argument, so the product of a gradient of that shape with it is the
    gradient. *)
Theorem X5_linear_derivative_is_neutral (da z : Array) :
  shape da = shape z ->
  exists dz,
    mul da (apply_derivative LINEAR_ACTIVATION z) = Ok dz /\ array_eq dz da.
Proof.
  intros Hs. unfold mul. rewrite elementwise_same_shape by exact Hs.
  eexists. split; [reflexivity|]. split; [reflexivity|].
  intros i j Hi Hj. cbn [nrows ncols tabulate] in Hi, Hj.
  assert (nrows da = nrows z /\ ncols da = ncols z) as [Hr Hc]
    by (unfold shape in Hs; split; congruence).
  rewrite get_tabulate by assumption.
  rewrite !bget_in_range by (cbn; lia).
  cbn [apply_derivative LINEAR_ACTIVATION]. unfold ones.
  rewrite get_tabulate by (cbn; lia). ring.
Qed.

Lemma X5_linear_derivative_witness :
  shape sample_d = shape sample_z /\
  exists dz,
    mul sample_d (apply_derivative LINEAR_ACTIVATION sample_z) = Ok dz /\
    array_eq dz sample_d.
Proof.
  split; [reflexivity|].
  apply (X5_linear_derivative_is_neutral sample_d sample_z). reflexivity.
Defined.

(** ** More on the velocity update *)

Section VelocityFacts.

Lemma bdim_incompatible (n m : nat) :
  n <> m -> n <> 1 -> m <> 1 -> bdim n m = None.
Proof.
  intros H1 H2 H3. unfold bdim.
  destruct (Nat.eqb_spec n m); [lia|].
  destruct (Nat.eqb_spec n 1); [lia|].
  destruct (Nat.eqb_spec m 1); [lia|reflexivity].
Qed.


End VelocityFacts.

(** X6. [__calculate_velocity] raises [ValueError] when the gradient and
    the velocity cannot be broadcast together: their row counts differ and
    neither is 1, or their column counts differ and neither is 1. *)
Theorem X6_calculate_velocity_shape_error
    (self : GradientDescentOptimizer) (d d_velocity : Array) :
  (nrows d_velocity <> nrows d /\ nrows d_velocity <> 1 /\ nrows d <> 1) \/
  (ncols d_velocity <> ncols d /\ ncols d_velocity <> 1 /\ ncols d <> 1) ->
  calculate_velocity self d d_velocity = Err ValueError.
Proof.
  intros H. unfold calculate_velocity, add, elementwise.
  cbn [nrows ncols scale tabulate].
  destruct H as [(H1 & H2 & H3) | (H1 & H2 & H3)].
  - now rewrite bdim_incompatible.
  - rewrite (bdim_incompatible (ncols d_velocity)) by assumption.
    now destruct (bdim (nrows d_velocity) (nrows d)).
Qed.

Lemma X6_calculate_velocity_shape_witness :
  ((nrows sample_v <> nrows sample_row /\ nrows sample_v <> 1 /\ nrows sample_row <> 1) \/
   (ncols sample_v <> ncols sample_row /\ ncols sample_v <> 1 /\ ncols sample_row <> 1)) /\
  calculate_velocity scenario_optimizer sample_row sample_v = Err ValueError.
Proof.
  split; [right; repeat split; cbn; lia|].
  apply (X6_calculate_velocity_shape_error scenario_optimizer sample_row sample_v).
  right; repeat split; cbn; lia.
Defined.







(** ** More on [optimize] and the traversal *)

(** X10. [optimize] never returns a result: on every optimizer, prepared
    or not, and every input it raises, and the optimizer, target and
    velocities included, is as it was before the call. *)
Theorem X10_optimize_never_returns
    (self : GradientDescentOptimizer) (epoch : Z) (x y_true : Array) (f : LossFunction) :
  exists e, optimize epoch x y_true f self = Some (Err e, self).
Proof. apply optimize_raises. Qed.

(** X11. With a single layer to go through, as a bare target or as the
    only child of a composite, [optimize] raises [IndexError], whatever the
    layer and the input are: the step at position 0 asks for [layers[1]]. *)
Theorem X11_single_layer_raises_IndexError
    (self : GradientDescentOptimizer) (t : Layer) (epoch : Z)
    (x y_true : Array) (f : LossFunction) :
  target self = Some t ->
  is_composite t = false \/ (exists l, t = CompositeLayer [l]) ->
  optimize epoch x y_true f self = Some (Err IndexError, self).
Proof.
  intros Ht Hk. unfold optimize. rewrite Ht.
  assert (Hrun : forall l, rebuild t [l] = t ->
            run_on_target t [l] (optimize_deep x y_true (PyInt 0)) self
            = Some (Err IndexError, self)).
  { intros l Hr. unfold run_on_target.
    assert (Hd : optimize_deep x y_true (PyInt 0) (mkEnv [l] self)
                 = Some (Err IndexError, mkEnv [l] self)) by reflexivity.
    rewrite Hd. cbn [layers self_]. now rewrite Hr, set_target_same. }
  destruct Hk as [Hk | [l ->]].
  - destruct t; try discriminate Hk; now apply Hrun.
  - now apply Hrun.
Qed.

Lemma X11_single_layer_witness :
  (target (with_target (CompositeLayer [WeightLayer scenario_W]))
   = Some (CompositeLayer [WeightLayer scenario_W]) /\
   (is_composite (CompositeLayer [WeightLayer scenario_W]) = false \/
    exists l, CompositeLayer [WeightLayer scenario_W] = CompositeLayer [l])) /\
  optimize 1 scenario_x scenario_y_true MSE_LOSS
           (with_target (CompositeLayer [WeightLayer scenario_W]))
  = Some (Err IndexError, with_target (CompositeLayer [WeightLayer scenario_W])).
Proof.
  split; [split; [reflexivity | right; eexists; reflexivity]|].
  apply (X11_single_layer_raises_IndexError
           (with_target (CompositeLayer [WeightLayer scenario_W]))
           (CompositeLayer [WeightLayer scenario_W]) 1 scenario_x scenario_y_true MSE_LOSS);
    [reflexivity | right; eexists; reflexivity].
Defined.

(** X12. Over the empty list [__optimize_deep] reaches the base case at
    once: given a loss function it returns [apply(y_true, x)] of that
    function, given an integer it raises [AttributeError]; nothing is
    changed either way. *)
Theorem X12_optimize_deep_base_case (x y_true : Array) (env : Env) :
  layers env = [] ->
  (forall f, optimize_deep x y_true (PyLossFunction f) env
             = Some (Ok (loss_apply f y_true x), env)) /\
  (forall n, optimize_deep x y_true (PyInt n) env = Some (Err AttributeError, env)).
Proof.
  intros Hl. split; intros; now rewrite optimize_deep_empty.
Qed.

Lemma X12_optimize_deep_base_case_witness :
  layers (mkEnv [] scenario_optimizer) = [] /\
  (forall f, optimize_deep scenario_x scenario_y_true (PyLossFunction f)
                           (mkEnv [] scenario_optimizer)
             = Some (Ok (loss_apply f scenario_y_true scenario_x),
                     mkEnv [] scenario_optimizer)) /\
  (forall n, optimize_deep scenario_x scenario_y_true (PyInt n)
                           (mkEnv [] scenario_optimizer)
             = Some (Err AttributeError, mkEnv [] scenario_optimizer)).
Proof.
  split; [reflexivity|].
  apply (X12_optimize_deep_base_case scenario_x scenario_y_true
           (mkEnv [] scenario_optimizer)).
  reflexivity.
Defined.

Section TraversalExceptions.

Lemma dot_raises_ValueError (a b : Array) (e : exn) : dot a b = Err e -> e = ValueError.
Proof. unfold dot. destruct (Nat.eqb _ _); congruence. Qed.

Lemma elementwise_raises_ValueError (op : Q -> Q -> Q) (a b : Array) (e : exn) :
  elementwise op a b = Err e -> e = ValueError.
Proof.
  unfold elementwise.
  destruct (bdim (nrows a) (nrows b)), (bdim (ncols a) (ncols b)); congruence.
Qed.

Variable P : exn -> Prop.
Hypothesis P_index : P IndexError.
Hypothesis P_value : P ValueError.
Hypothesis P_type : P TypeError.

Lemma fails_with_lift_bind {A B} (r : res A) (f : A -> M B) (env : Env) :
  (forall e, r = Err e -> e = ValueError) ->
  (forall a, r = Ok a -> fails_with P (f a) env) ->
  fails_with P (lift r ≫= f) env.
Proof using P_value.
  intros He H. destruct r as [a|e].
  - destruct (H a eq_refl) as (e & HP & Hrun). exists e. split; [assumption|].
    now rewrite (bind_ok _ _ env env a).
  - exists e. split; [now rewrite (He e eq_refl) | now apply bind_err].
Qed.

Lemma stuck_with_unpack {B} (m : M (option (Array * Q)))
    (k : Array * Q -> M B) (env : Env) :
  stuck_with P m env -> fails_with P (r ← m; p ← unpack r; k p) env.
Proof using P_type.
  intros [(e & HP & Hf) | Hn].
  - exists e. split; [assumption | now apply bind_err].
  - exists TypeError. split; [assumption | now rewrite (bind_ok _ _ env env None)].
Qed.

Lemma stuck_with_get_env (f : Env -> M (option (Array * Q))) (env : Env) :
  stuck_with P (f env) env -> stuck_with P (get_env ≫= f) env.
Proof.
  unfold stuck_with, fails_with. now rewrite (bind_ok get_env f env env env).
Qed.

Lemma stuck_with_layers_getitem (i : nat) (f : Layer -> M (option (Array * Q)))
    (env : Env) :
  (forall it, layers env !! i = Some it -> stuck_with P (f it) env) ->
  stuck_with P (layers_getitem i ≫= f) env.
Proof using P_index.
  intros H. unfold stuck_with, fails_with.
  destruct (layers env !! i) as [it|] eqn:Hit.
  - rewrite (bind_ok (layers_getitem i) f env env it)
      by (unfold layers_getitem; now rewrite Hit).
    now apply H.
  - left. exists IndexError. split; [assumption|]. apply bind_err.
    unfold layers_getitem. now rewrite Hit.
Qed.

Lemma optimize_recursively_stuck_with (y_true : Array) (loss_fun : PyObj)
    (fuel layer_num : nat) (a_prev : Array) (env : Env) :
  layer_num < length (layers env) ->
  length (layers env) - layer_num <= fuel ->
  stuck_with P (optimize_recursively y_true loss_fun fuel layer_num a_prev) env.
Proof using P_index P_value P_type.
  revert layer_num a_prev.
  induction fuel as [|fuel IH]; intros layer_num a_prev Hlt Hfuel; [lia|].
  cbn [optimize_recursively].
  apply stuck_with_get_env. rewrite decide_False by lia.
  apply stuck_with_layers_getitem. intros it Hit.
  apply lookup_lt_Some in Hit.
  assert (Hrec : forall a,
             stuck_with P (optimize_recursively y_true loss_fun fuel (layer_num + 1) a) env)
    by (intros a; apply IH; lia).
  destruct it as [weight | weight bias | fun_ | reshape | values].
  - left. apply fails_with_lift_bind; [apply dot_raises_ValueError|].
    intros z _. now apply stuck_with_unpack.
  - left. apply fails_with_lift_bind; [apply dot_raises_ValueError|].
    intros wa _.
    apply fails_with_lift_bind; [apply elementwise_raises_ValueError|].
    intros z _. now apply stuck_with_unpack.
  - left. now apply stuck_with_unpack.
  - left. now apply stuck_with_unpack.
  - now right.
Qed.

End TraversalExceptions.

(** X13. Over a list with at least one layer [__optimize_deep] raises one
    of [IndexError], [ValueError] and [TypeError], for every value of
    [loss_fun], and changes no layer and no velocity: the velocity store,
    the loss function and the unbound [z] of the activation case are never
    reached. *)
Theorem X13_optimize_deep_exception_class
    (x y_true : Array) (loss_fun : PyObj) (env : Env) :
  layers env <> [] ->
  exists e, traversal_exn e /\ optimize_deep x y_true loss_fun env = Some (Err e, env).
Proof.
  intros Hne. unfold optimize_deep.
  rewrite (bind_ok get_env _ env env env eq_refl).
  apply (stuck_with_unpack traversal_exn); [unfold traversal_exn; tauto|].
  apply optimize_recursively_stuck_with; unfold traversal_exn; try tauto.
  - destruct (layers env); [congruence | cbn; lia].
  - lia.
Qed.

Lemma X13_optimize_deep_exception_witness :
  layers (mkEnv [ActivationLayer RELU_ACTIVATION; WeightLayer sample_row]
                scenario_optimizer) <> [] /\
  exists e,
    traversal_exn e /\
    optimize_deep sample_z scenario_y_true (PyLossFunction MSE_LOSS)
      (mkEnv [ActivationLayer RELU_ACTIVATION; WeightLayer sample_row] scenario_optimizer)
    = Some (Err e,
            mkEnv [ActivationLayer RELU_ACTIVATION; WeightLayer sample_row]
                  scenario_optimizer).
Proof.
  split; [discriminate|].
  apply (X13_optimize_deep_exception_class sample_z scenario_y_true
           (PyLossFunction MSE_LOSS)
           (mkEnv [ActivationLayer RELU_ACTIVATION; WeightLayer sample_row]
                  scenario_optimizer)).
  discriminate.
Defined.

Section TraversalCases.

Variables (y_true : Array) (loss_fun : PyObj).

(** From a position after which only activation and reshape layers
    follow, the steps run to the last position and raise there. *)
Lemma optimize_recursively_stateless (fuel layer_num : nat) (a_prev : Array) (env : Env) :
  layer_num < length (layers env) ->
  length (layers env) - layer_num <= fuel ->
  (forall i it, layer_num < i -> layers env !! i = Some it -> is_stateless it = true) ->
  optimize_recursively y_true loss_fun fuel layer_num a_prev env
  = Some (Err IndexError, env).
Proof.
  revert layer_num a_prev.
  induction fuel as [|fuel IH]; intros layer_num a_prev Hlt Hfuel Hall; [lia|].
  cbn [optimize_recursively].
  rewrite (bind_ok get_env _ env env env eq_refl).
  rewrite decide_False by lia.
  destruct (layers env !! (layer_num + 1)) as [it|] eqn:Hit.
  2:{ apply bind_err. unfold layers_getitem. now rewrite Hit. }
  rewrite (bind_ok (layers_getitem (layer_num + 1)) _ env env it)
    by (unfold layers_getitem; now rewrite Hit).
  pose proof (Hall (layer_num + 1) it ltac:(lia) Hit) as Hst.
  apply lookup_lt_Some in Hit.
  destruct it as [weight | weight bias | fun_ | reshape | values];
    try discriminate Hst;
    (apply bind_err; apply IH; [lia | lia |];
     intros i it' Hi; apply Hall; lia).
Qed.

(** The outcome of a step does not depend on the layer at position 0. *)
Lemma optimize_recursively_first_layer (l l' : Layer) (rest : list Layer)
    (self : GradientDescentOptimizer) (fuel layer_num : nat) (a_prev : Array) :
  layer_num < S (length rest) ->
  S (length rest) - layer_num <= fuel ->
  same_step (optimize_recursively y_true loss_fun fuel layer_num a_prev)
            (optimize_recursively y_true loss_fun fuel layer_num a_prev)
            (mkEnv (l :: rest) self) (mkEnv (l' :: rest) self).
Proof.
  set (env1 := mkEnv (l :: rest) self). set (env2 := mkEnv (l' :: rest) self).
  assert (Hunpack : forall B (m1 m2 : M (option (Array * Q))) (k1 k2 : Array * Q -> M B),
             same_step m1 m2 env1 env2 ->
             same_outcome (r ← m1; p ← unpack r; k1 p) (r ← m2; p ← unpack r; k2 p)
                          env1 env2).
  { intros B m1 m2 k1 k2 [(e & H1 & H2) | [H1 H2]].
    - exists e. split; now apply bind_err.
    - exists TypeError.
      split; [now rewrite (bind_ok _ _ env1 env1 None)
             | now rewrite (bind_ok _ _ env2 env2 None)]. }
  assert (Hlift : forall A B (r : res A) (f1 f2 : A -> M B),
             (forall a, r = Ok a -> same_outcome (f1 a) (f2 a) env1 env2) ->
             same_outcome (lift r ≫= f1) (lift r ≫= f2) env1 env2).
  { intros A B r f1 f2 H. destruct r as [a|e].
    - destruct (H a eq_refl) as (e & H1 & H2). exists e.
      split; [now rewrite (bind_ok _ _ env1 env1 a)
             | now rewrite (bind_ok _ _ env2 env2 a)].
    - exists e. split; now apply bind_err. }
  revert layer_num a_prev.
  induction fuel as [|fuel IH]; intros layer_num a_prev Hlt Hfuel; [lia|].
  cbn [optimize_recursively]. unfold same_step, same_outcome.
  rewrite (bind_ok get_env _ env1 env1 env1 eq_refl).
  rewrite (bind_ok get_env _ env2 env2 env2 eq_refl).
  rewrite !decide_False by (cbn; lia).
  assert (Hsame : layers env1 !! (layer_num + 1) = layers env2 !! (layer_num + 1))
    by (rewrite Nat.add_1_r; reflexivity).
  destruct (layers env1 !! (layer_num + 1)) as [it|] eqn:Hit.
  2:{ left. exists IndexError.
      split; apply bind_err; unfold layers_getitem;
        [now rewrite Hit | now rewrite <- Hsame]. }
  rewrite (bind_ok (layers_getitem (layer_num + 1)) _ env1 env1 it)
    by (unfold layers_getitem; now rewrite Hit).
  rewrite (bind_ok (layers_getitem (layer_num + 1)) _ env2 env2 it)
    by (unfold layers_getitem; now rewrite <- Hsame).
  apply lookup_lt_Some in Hit. cbn in Hit.
  assert (Hrec : forall a,
             same_step (optimize_recursively y_true loss_fun fuel (layer_num + 1) a)
                       (optimize_recursively y_true loss_fun fuel (layer_num + 1) a)
                       env1 env2)
    by (intros a; apply IH; lia).
  destruct it as [weight | weight bias | fun_ | reshape | values].
  - left. apply Hlift; intros z _. now apply Hunpack.
  - left. apply Hlift; intros wa _. apply Hlift; intros z _. now apply Hunpack.
  - left. now apply Hunpack.
  - left. now apply Hunpack.
  - right. split; reflexivity.
Qed.

End TraversalCases.

(** X14. On a composite whose layers after the first are all activation
    or reshape layers, [optimize] raises [IndexError]: the steps run through
    to the last position, which asks for a layer past the end. *)
Theorem X14_stateless_tail_raises_IndexError
    (self : GradientDescentOptimizer) (l : Layer) (rest : list Layer)
    (epoch : Z) (x y_true : Array) (f : LossFunction) :
  target self = Some (CompositeLayer (l :: rest)) ->
  forallb is_stateless rest = true ->
  optimize epoch x y_true f self = Some (Err IndexError, self).
Proof.
  intros Ht Hall. unfold optimize. rewrite Ht. unfold run_on_target.
  set (env := mkEnv (l :: rest) self).
  assert (Hd : optimize_deep x y_true (PyInt 0) env = Some (Err IndexError, env)).
  { unfold optimize_deep. rewrite (bind_ok get_env _ env env env eq_refl).
    apply bind_err. apply optimize_recursively_stateless; cbn; try lia.
    intros i it Hi Hit. destruct i as [|i]; [lia|]. cbn in Hit.
    rewrite forallb_forall in Hall. apply Hall.
    apply list_elem_of_In. now apply list_elem_of_lookup_2 in Hit. }
  rewrite Hd. cbn [layers self_ env rebuild]. now rewrite set_target_same.
Qed.

Lemma X14_stateless_tail_witness :
  (target (with_target (CompositeLayer [WeightLayer scenario_W;
                                        ActivationLayer RELU_ACTIVATION;
                                        ActivationLayer LINEAR_ACTIVATION]))
   = Some (CompositeLayer (WeightLayer scenario_W
                           :: [ActivationLayer RELU_ACTIVATION;
                               ActivationLayer LINEAR_ACTIVATION])) /\
   forallb is_stateless [ActivationLayer RELU_ACTIVATION;
                         ActivationLayer LINEAR_ACTIVATION] = true) /\
  optimize 1 scenario_x scenario_y_true MSE_LOSS
           (with_target (CompositeLayer [WeightLayer scenario_W;
                                         ActivationLayer RELU_ACTIVATION;
                                         ActivationLayer LINEAR_ACTIVATION]))
  = Some (Err IndexError,
          with_target (CompositeLayer [WeightLayer scenario_W;
                                       ActivationLayer RELU_ACTIVATION;
                                       ActivationLayer LINEAR_ACTIVATION])).
Proof.
  split; [split; reflexivity|].
  apply (X14_stateless_tail_raises_IndexError
           (with_target (CompositeLayer [WeightLayer scenario_W;
                                         ActivationLayer RELU_ACTIVATION;
                                         ActivationLayer LINEAR_ACTIVATION]))
           (WeightLayer scenario_W)
           [ActivationLayer RELU_ACTIVATION; ActivationLayer LINEAR_ACTIVATION]
           1 scenario_x scenario_y_true MSE_LOSS); reflexivity.
Defined.

(** X15. The first layer of the list has no part in the traversal: with
    any other layer in its place [__optimize_deep] raises the same
    exception, and in both runs nothing is changed. *)
Theorem X15_first_layer_is_never_used
    (l l' : Layer) (rest : list Layer) (self : GradientDescentOptimizer)
    (x y_true : Array) (loss_fun : PyObj) :
  exists e,
    optimize_deep x y_true loss_fun (mkEnv (l :: rest) self)
      = Some (Err e, mkEnv (l :: rest) self) /\
    optimize_deep x y_true loss_fun (mkEnv (l' :: rest) self)
      = Some (Err e, mkEnv (l' :: rest) self).
Proof.
  unfold optimize_deep.
  rewrite (bind_ok get_env _ (mkEnv (l :: rest) self) _ _ eq_refl).
  rewrite (bind_ok get_env _ (mkEnv (l' :: rest) self) _ _ eq_refl).
  cbn [layers length].
  destruct (optimize_recursively_first_layer y_true loss_fun l l' rest self
              (S (S (length rest))) 0 x ltac:(lia) ltac:(lia))
    as [(e & H1 & H2) | [H1 H2]].
  - exists e. split; now apply bind_err.
  - exists TypeError.
    split; [now rewrite (bind_ok _ _ _ _ None H1) | now rewrite (bind_ok _ _ _ _ None H2)].
Qed.

(** X16. A composite in second place among the layers is not entered: no
    case of the [match] applies to it, the step returns [None], and the
    unpacking in [__optimize_deep] raises [TypeError]. *)
Theorem X16_nested_composite_raises_TypeError
    (l : Layer) (values rest : list Layer) (x y_true : Array)
    (loss_fun : PyObj) (env : Env) :
  layers env = l :: CompositeLayer values :: rest ->
  optimize_deep x y_true loss_fun env = Some (Err TypeError, env).
Proof.
  intros Hl. unfold optimize_deep.
  rewrite (bind_ok get_env _ env env env eq_refl).
  assert (Hrec : optimize_recursively y_true loss_fun (S (length (layers env))) 0 x env
                 = Some (Ok None, env)).
  { cbn [optimize_recursively].
    rewrite (bind_ok get_env _ env env env eq_refl).
    rewrite decide_False by (rewrite Hl; cbn; lia).
    rewrite (bind_ok (layers_getitem (0 + 1)) _ env env (CompositeLayer values))
      by (unfold layers_getitem; now rewrite Hl).
    reflexivity. }
  now rewrite (bind_ok _ _ env env None Hrec).
Qed.

Lemma X16_nested_composite_witness :
  layers (mkEnv [WeightLayer scenario_W; CompositeLayer [WeightLayer scenario_W]]
                scenario_optimizer)
  = WeightLayer scenario_W :: CompositeLayer [WeightLayer scenario_W] :: [] /\
  optimize_deep scenario_x scenario_y_true (PyLossFunction MSE_LOSS)
    (mkEnv [WeightLayer scenario_W; CompositeLayer [WeightLayer scenario_W]]
           scenario_optimizer)
  = Some (Err TypeError,
          mkEnv [WeightLayer scenario_W; CompositeLayer [WeightLayer scenario_W]]
                scenario_optimizer).
Proof.
  split; [reflexivity|].
  apply (X16_nested_composite_raises_TypeError
           (WeightLayer scenario_W) [WeightLayer scenario_W] []
           scenario_x scenario_y_true (PyLossFunction MSE_LOSS)
           (mkEnv [WeightLayer scenario_W; CompositeLayer [WeightLayer scenario_W]]
                  scenario_optimizer)).
  reflexivity.
Defined.

(** X17. A weighted layer in second place whose weight has not as many
    columns as the input has rows makes [__optimize_deep] raise
    [ValueError], from [np.dot], before any recursive call. *)
Theorem X17_weight_shape_mismatch_raises_ValueError
    (l it : Layer) (rest : list Layer) (w b : Array) (x y_true : Array)
    (loss_fun : PyObj) (env : Env) :
  layers env = l :: it :: rest ->
  it = WeightLayer w \/ it = BiasedWeightLayer w b ->
  ncols w <> nrows x ->
  optimize_deep x y_true loss_fun env = Some (Err ValueError, env).
Proof.
  intros Hl Hit Hne. unfold optimize_deep.
  rewrite (bind_ok get_env _ env env env eq_refl).
  apply bind_err. cbn [optimize_recursively].
  rewrite (bind_ok get_env _ env env env eq_refl).
  rewrite decide_False by (rewrite Hl; cbn; lia).
  rewrite (bind_ok (layers_getitem (0 + 1)) _ env env it)
    by (unfold layers_getitem; now rewrite Hl).
  assert (Hdot : dot w x = Err ValueError).
  { unfold dot. now rewrite (proj2 (Nat.eqb_neq _ _) Hne). }
  destruct Hit as [-> | ->]; apply bind_err; unfold lift; now rewrite Hdot.
Qed.

Lemma X17_weight_shape_mismatch_witness :
  (layers (mkEnv [ActivationLayer LINEAR_ACTIVATION; WeightLayer sample_row]
                 scenario_optimizer)
   = ActivationLayer LINEAR_ACTIVATION :: WeightLayer sample_row :: [] /\
   (WeightLayer sample_row = WeightLayer sample_row \/
    WeightLayer sample_row = BiasedWeightLayer sample_row scenario_b) /\
   ncols sample_row <> nrows scenario_x) /\
  optimize_deep scenario_x scenario_y_true (PyLossFunction MSE_LOSS)
    (mkEnv [ActivationLayer LINEAR_ACTIVATION; WeightLayer sample_row] scenario_optimizer)
  = Some (Err ValueError,
          mkEnv [ActivationLayer LINEAR_ACTIVATION; WeightLayer sample_row]
                scenario_optimizer).
Proof.
  split; [split; [reflexivity | split; [left; reflexivity | cbn; lia]]|].
  apply (X17_weight_shape_mismatch_raises_ValueError
           (ActivationLayer LINEAR_ACTIVATION) (WeightLayer sample_row) []
           sample_row scenario_b scenario_x scenario_y_true (PyLossFunction MSE_LOSS)
           (mkEnv [ActivationLayer LINEAR_ACTIVATION; WeightLayer sample_row]
                  scenario_optimizer));
    [reflexivity | left; reflexivity | cbn; lia].
Defined.

(** ** More on [prepare] and [__init_velocity] *)

Section Preparation.

Lemma set_velocities_same (self : GradientDescentOptimizer)
    (v : gmap nat (gmap string Array)) :
  velocities self = Some v -> set_velocities v self = self.
Proof. destruct self; cbn; now intros ->. Qed.

(** Given a mapping, [__init_velocity] on a layer that is no composite
    stores the entry of the layer under [id], if the layer has one. *)
Lemma init_velocity_leaf (l : Layer) (id : nat) (self : GradientDescentOptimizer)
    (v : gmap nat (gmap string Array)) :
  velocities self = Some v -> is_composite l = false ->
  init_velocity l id self
  = (Ok tt, set_velocities (match velocity_entry l with
                            | Some e => <[id := e]> v
                            | None => v
                            end) self).
Proof.
  intros Hv Hl.
  destruct l; try discriminate Hl; cbn [init_velocity velocity_entry];
    unfold velocities_setitem; rewrite ?Hv; try reflexivity;
    now rewrite set_velocities_same.
Qed.

(** Given a mapping, [__init_velocity] completes on every graph, changes
    nothing but the mapping and removes no key from it. *)
Lemma init_velocity_with_store (l : Layer) :
  forall (id : nat) (self : GradientDescentOptimizer) (v : gmap nat (gmap string Array)),
    velocities self = Some v ->
    exists v', init_velocity l id self = (Ok tt, set_velocities v' self) /\
               dom v ⊆ dom v'.
Proof.
  induction l as [w | w b | f | f | values IH] using Layer_nested_ind;
    intros id self v Hv.
  1-4: match goal with
       | |- context [init_velocity ?l _ _] =>
           rewrite (init_velocity_leaf l id self v Hv eq_refl)
       end; cbn [velocity_entry];
       eexists; (split; [reflexivity|]);
       rewrite ?dom_insert_L; set_solver.
  rewrite init_velocity_composite. generalize 0 as i. revert self v Hv.
  induction IH as [|l vs Hhd _ IHtl]; intros self v Hv i.
  - exists v. split; [cbn; now rewrite set_velocities_same | set_solver].
  - cbn [init_velocity_values].
    destruct (Hhd i self v Hv) as (v1 & -> & Hd1).
    destruct (IHtl (set_velocities v1 self) v1 eq_refl (S i)) as (v2 & -> & Hd2).
    exists v2. split; [reflexivity | set_solver].
Qed.

(** The loop over the children of a composite without composite children,
    counting from [k]. *)
Lemma init_velocity_values_flat (values : list Layer) :
  forall (k : nat) (self : GradientDescentOptimizer) (v : gmap nat (gmap string Array)),
    velocities self = Some v ->
    forallb (fun l => negb (is_composite l)) values = true ->
    exists v',
      init_velocity_values values k self = (Ok tt, set_velocities v' self) /\
      forall i,
        v' !! i = match (if decide (k <= i)
                         then values !! (i - k) ≫= velocity_entry else None) with
                  | Some e => Some e
                  | None => v !! i
                  end.
Proof.
  induction values as [|l vs IH]; intros k self v Hv Hflat.
  - exists v. split; [cbn; now rewrite set_velocities_same|].
    intros i. destruct (decide (k <= i)); reflexivity.
  - cbn [forallb] in Hflat. apply andb_prop in Hflat as [Hl Hvs].
    apply negb_true_iff in Hl.
    cbn [init_velocity_values]. rewrite (init_velocity_leaf l k self v Hv Hl).
    set (v1 := match velocity_entry l with Some e => <[k := e]> v | None => v end).
    destruct (IH (S k) (set_velocities v1 self) v1 eq_refl Hvs) as (v2 & -> & Hlook).
    exists v2. split; [reflexivity|]. intros i. rewrite Hlook.
    assert (Hother : i <> k -> v1 !! i = v !! i).
    { intros Hne. unfold v1. destruct (velocity_entry l); [|reflexivity].
      now rewrite lookup_insert_ne by lia. }
    destruct (decide (S k <= i)) as [Hge|Hlt].
    + rewrite decide_True by lia.
      replace (i - k) with (S (i - S k)) by lia. cbn [lookup list_lookup].
      destruct (vs !! (i - S k) ≫= velocity_entry); [reflexivity | apply Hother; lia].
    + destruct (decide (k <= i)) as [Hk|Hk]; [|apply Hother; lia].
      assert (i = k) as -> by lia. rewrite Nat.sub_diag. cbn.
      unfold v1. destruct (velocity_entry l); [|reflexivity].
      now rewrite lookup_insert_eq.
Qed.

(** From an optimizer without velocity mapping no sequence of calls
    creates one, and none changes the two rates. *)
Lemma run_calls_no_store (cs : list call) :
  forall self, velocities self = None ->
    exists self', run_calls cs self = Some self' /\
                  velocities self' = None /\
                  learning_rate self' = learning_rate self /\
                  momentum self' = momentum self.
Proof.
  induction cs as [|c cs IH]; intros self Hv; [now exists self|].
  cbn [run_calls]. destruct c as [supplier | epoch x y_true f]; cbn [run_call].
  - rewrite (prepare_no_store supplier self Hv). cbn [snd].
    destruct (IH (set_target (supplier tt) self) Hv) as (self' & -> & H1 & H2 & H3).
    now exists self'.
  - destruct (optimize_raises self epoch x y_true f) as [e ->]. cbn.
    destruct (IH self Hv) as (self' & -> & H1 & H2 & H3). now exists self'.
Qed.

End Preparation.

(** X18. On an optimizer that has no velocity mapping, [prepare]
    completes exactly when the graph holds no weighted layer at any depth,
    and raises [AttributeError] otherwise; either way the target is the
    supplied graph and nothing else of the optimizer is changed. *)
Theorem X18_prepare_without_store
    (params_supplier : unit -> Layer) (self : GradientDescentOptimizer) :
  velocities self = None ->
  (has_weighted (params_supplier tt) = false ->
   fst (prepare params_supplier self) = Ok tt) /\
  (has_weighted (params_supplier tt) = true ->
   fst (prepare params_supplier self) = Err AttributeError) /\
  snd (prepare params_supplier self) = set_target (params_supplier tt) self.
Proof.
  intros Hv. rewrite (prepare_no_store params_supplier self Hv). cbn [fst snd].
  repeat split; now intros ->.
Qed.

Lemma X18_prepare_without_store_witness :
  velocities scenario_optimizer = None /\
  (has_weighted (CompositeLayer [ActivationLayer RELU_ACTIVATION; CompositeLayer []]) = false ->
   fst (prepare (fun _ => CompositeLayer [ActivationLayer RELU_ACTIVATION; CompositeLayer []])
                scenario_optimizer) = Ok tt) /\
  (has_weighted (CompositeLayer [ActivationLayer RELU_ACTIVATION; CompositeLayer []]) = true ->
   fst (prepare (fun _ => CompositeLayer [ActivationLayer RELU_ACTIVATION; CompositeLayer []])
                scenario_optimizer) = Err AttributeError) /\
  snd (prepare (fun _ => CompositeLayer [ActivationLayer RELU_ACTIVATION; CompositeLayer []])
               scenario_optimizer)
  = set_target (CompositeLayer [ActivationLayer RELU_ACTIVATION; CompositeLayer []])
               scenario_optimizer.
Proof.
  split; [reflexivity|].
  apply (X18_prepare_without_store
           (fun _ => CompositeLayer [ActivationLayer RELU_ACTIVATION; CompositeLayer []])
           scenario_optimizer).
  reflexivity.
Defined.

(** X19. Whatever calls of [prepare] and [optimize] are made on a new
    optimizer, in any order and whether they raise or not, the optimizer
    never gets a velocity mapping, and its learning rate and momentum stay
    those of the constructor. *)
Theorem X19_no_call_creates_the_store (cs : list call) (learning_rate0 momentum0 : Q) :
  exists self,
    run_calls cs (init learning_rate0 momentum0) = Some self /\
    velocities self = None /\
    learning_rate self = learning_rate0 /\
    momentum self = momentum0.
Proof. apply (run_calls_no_store cs (init learning_rate0 momentum0)). reflexivity. Qed.

(** X20. No order of calls gets a weighted network prepared: after any
    calls on a new optimizer, [prepare] with a graph that holds a weighted
    layer raises [AttributeError]. *)
Theorem X20_weighted_graph_is_never_prepared
    (cs : list call) (learning_rate0 momentum0 : Q)
    (self : GradientDescentOptimizer) (params_supplier : unit -> Layer) :
  run_calls cs (init learning_rate0 momentum0) = Some self ->
  has_weighted (params_supplier tt) = true ->
  fst (prepare params_supplier self) = Err AttributeError.
Proof.
  intros Hrun Hw.
  destruct (run_calls_no_store cs (init learning_rate0 momentum0) eq_refl)
    as (self' & Hrun' & Hv & _).
  assert (self' = self) as -> by congruence.
  rewrite (prepare_no_store params_supplier self Hv). cbn [fst]. now rewrite Hw.
Qed.

Lemma X20_weighted_graph_witness :
  (run_calls [CallPrepare (fun _ => ActivationLayer LINEAR_ACTIVATION);
              CallOptimize 1 scenario_x scenario_y_true MSE_LOSS;
              CallPrepare (fun _ => three_layers)]
             (init (1 # 10) 0)
   = Some (with_target three_layers) /\
   has_weighted (WeightLayer scenario_W) = true) /\
  fst (prepare (fun _ => WeightLayer scenario_W) (with_target three_layers))
  = Err AttributeError.
Proof.
  split; [split; reflexivity|].
  apply (X20_weighted_graph_is_never_prepared
           [CallPrepare (fun _ => ActivationLayer LINEAR_ACTIVATION);
            CallOptimize 1 scenario_x scenario_y_true MSE_LOSS;
            CallPrepare (fun _ => three_layers)]
           (1 # 10) 0 (with_target three_layers) (fun _ => WeightLayer scenario_W));
    reflexivity.
Defined.

(** X21. Given a velocity mapping, [__init_velocity] completes on every
    graph, nested composites included; it changes only the mapping and
    removes no key from it. *)
Theorem X21_init_velocity_only_adds
    (l : Layer) (id : nat) (self : GradientDescentOptimizer)
    (v : gmap nat (gmap string Array)) :
  velocities self = Some v ->
  exists v', init_velocity l id self = (Ok tt, set_velocities v' self) /\
             dom v ⊆ dom v'.
Proof. apply init_velocity_with_store. Qed.

Lemma X21_init_velocity_only_adds_witness :
  velocities (set_velocities (<[7 := ∅]> ∅) scenario_optimizer) = Some (<[7 := ∅]> ∅) /\
  exists v',
    init_velocity three_layers 0 (set_velocities (<[7 := ∅]> ∅) scenario_optimizer)
    = (Ok tt, set_velocities v' (set_velocities (<[7 := ∅]> ∅) scenario_optimizer)) /\
    dom (<[7 := ∅]> (∅ : gmap nat (gmap string Array))) ⊆ dom v'.
Proof.
  split; [reflexivity|].
  apply (X21_init_velocity_only_adds three_layers 0
           (set_velocities (<[7 := ∅]> ∅) scenario_optimizer) (<[7 := ∅]> ∅)).
  reflexivity.
Defined.

(** X22. Given a velocity mapping, [__init_velocity] on a composite
    without composite children stores under key [i] the zero arrays of the
    child at position [i] when that child is weighted ("dw", and "db" for a
    biased layer), and leaves every other key as it was. *)
Theorem X22_init_velocity_flat_composite
    (values : list Layer) (id : nat) (self : GradientDescentOptimizer)
    (v : gmap nat (gmap string Array)) :
  velocities self = Some v ->
  forallb (fun l => negb (is_composite l)) values = true ->
  exists v',
    init_velocity (CompositeLayer values) id self = (Ok tt, set_velocities v' self) /\
    forall i,
      v' !! i = match values !! i ≫= velocity_entry with
                | Some e => Some e
                | None => v !! i
                end.
Proof.
  intros Hv Hflat. rewrite init_velocity_composite.
  destruct (init_velocity_values_flat values 0 self v Hv Hflat) as (v' & Hrun & Hlook).
  exists v'. split; [assumption|]. intros i. rewrite Hlook.
  rewrite decide_True by lia. now rewrite Nat.sub_0_r.
Qed.

Lemma X22_init_velocity_flat_witness :
  (velocities (set_velocities ∅ scenario_optimizer) = Some ∅ /\
   forallb (fun l => negb (is_composite l))
           [BiasedWeightLayer scenario_W scenario_b;
            ActivationLayer RELU_ACTIVATION;
            WeightLayer scenario_W] = true) /\
  exists v',
    init_velocity three_layers 5 (set_velocities ∅ scenario_optimizer)
    = (Ok tt, set_velocities v' (set_velocities ∅ scenario_optimizer)) /\
    forall i,
      v' !! i = match [BiasedWeightLayer scenario_W scenario_b;
                       ActivationLayer RELU_ACTIVATION;
                       WeightLayer scenario_W] !! i ≫= velocity_entry with
                | Some e => Some e
                | None => (∅ : gmap nat (gmap string Array)) !! i
                end.
Proof.
  split; [split; reflexivity|].
  apply (X22_init_velocity_flat_composite
           [BiasedWeightLayer scenario_W scenario_b;
            ActivationLayer RELU_ACTIVATION;
            WeightLayer scenario_W] 5 (set_velocities ∅ scenario_optimizer) ∅);
    reflexivity.
Defined.

(** X23. The keys are positions within one composite, so a nested
    composite writes over the keys of its parent: given a velocity mapping,
    after [__init_velocity] on a composite of a weighted layer and a nested
    composite of one weighted layer, key 0 holds the entry of the nested
    layer and the entry of the first layer is gone. *)
Theorem X23_nested_composite_overwrites_keys
    (l1 l2 : Layer) (e1 e2 : gmap string Array) (id : nat)
    (self : GradientDescentOptimizer) (v : gmap nat (gmap string Array)) :
  velocities self = Some v ->
  velocity_entry l1 = Some e1 ->
  velocity_entry l2 = Some e2 ->
  init_velocity (CompositeLayer [l1; CompositeLayer [l2]]) id self
  = (Ok tt, set_velocities (<[0 := e2]> v) self).
Proof.
  intros Hv H1 H2.
  assert (Hc : forall l e, velocity_entry l = Some e -> is_composite l = false)
    by (intros [] ?; cbn; congruence).
  rewrite init_velocity_composite. cbn [init_velocity_values].
  rewrite (init_velocity_leaf l1 0 self v Hv (Hc _ _ H1)), H1.
  rewrite init_velocity_composite. cbn [init_velocity_values].
  rewrite (init_velocity_leaf l2 0 (set_velocities (<[0 := e1]> v) self)
             (<[0 := e1]> v) eq_refl (Hc _ _ H2)), H2.
  now rewrite insert_insert_eq.
Qed.

Lemma X23_nested_composite_witness :
  (velocities (set_velocities ∅ scenario_optimizer) = Some ∅ /\
   velocity_entry (BiasedWeightLayer sample_z scenario_b)
   = Some (<["dw" := zeros (shape sample_z)]> (<["db" := zeros (shape scenario_b)]> ∅)) /\
   velocity_entry (WeightLayer scenario_W)
   = Some (<["dw" := zeros (shape scenario_W)]> ∅)) /\
  init_velocity (CompositeLayer [BiasedWeightLayer sample_z scenario_b;
                                 CompositeLayer [WeightLayer scenario_W]])
                0 (set_velocities ∅ scenario_optimizer)
  = (Ok tt,
     set_velocities (<[0 := <["dw" := zeros (shape scenario_W)]> ∅]> ∅)
                    (set_velocities ∅ scenario_optimizer)).
Proof.
  split; [repeat split; reflexivity|].
  apply (X23_nested_composite_overwrites_keys
           (BiasedWeightLayer sample_z scenario_b) (WeightLayer scenario_W)
           (<["dw" := zeros (shape sample_z)]> (<["db" := zeros (shape scenario_b)]> ∅))
           (<["dw" := zeros (shape scenario_W)]> ∅)
           0 (set_velocities ∅ scenario_optimizer) ∅);
    reflexivity.
Defined.

(** X24. With no layer to go through, [optimize] raises
    [AttributeError]: before any [prepare] because the target attribute
    does not exist, and on the empty composite because the base case asks
    the integer 0 for the methods of a loss function. *)
Theorem X24_nothing_to_optimize_raises_AttributeError
    (self : GradientDescentOptimizer) (epoch : Z) (x y_true : Array) (f : LossFunction) :
  target self = None \/ target self = Some (CompositeLayer []) ->
  optimize epoch x y_true f self = Some (Err AttributeError, self).
Proof.
  intros [Ht | Ht]; unfold optimize; rewrite Ht; [reflexivity|].
  unfold run_on_target. rewrite optimize_deep_empty by reflexivity.
  cbn [layers self_ rebuild]. now rewrite set_target_same.
Qed.

Lemma X24_nothing_to_optimize_witness :
  (target (init (1 # 10) (1 # 2)) = None \/
   target (init (1 # 10) (1 # 2)) = Some (CompositeLayer [])) /\
  optimize 3 sample_z sample_d MSE_LOSS (init (1 # 10) (1 # 2))
  = Some (Err AttributeError, init (1 # 10) (1 # 2)).
Proof.
  split; [left; reflexivity|].
  apply (X24_nothing_to_optimize_raises_AttributeError
           (init (1 # 10) (1 # 2)) 3 sample_z sample_d MSE_LOSS).
  left; reflexivity.
Defined.

(** X25. On an optimizer without velocity mapping a second [prepare]
    makes the first one void: the optimizer afterwards, and the outcome of
    the second call, are those of the second [prepare] alone. *)
Theorem X25_last_prepare_wins
    (first second : unit -> Layer) (self : GradientDescentOptimizer) :
  velocities self = None ->
  prepare second (snd (prepare first self)) = prepare second self.
Proof.
  intros Hv. rewrite (prepare_no_store first self Hv). cbn [snd].
  rewrite (prepare_no_store second (set_target (first tt) self) Hv).
  now rewrite (prepare_no_store second self Hv).
Qed.

Lemma X25_last_prepare_wins_witness :
  velocities scenario_optimizer = None /\
  prepare (fun _ => ActivationLayer RELU_ACTIVATION)
          (snd (prepare (fun _ => three_layers) scenario_optimizer))
  = prepare (fun _ => ActivationLayer RELU_ACTIVATION) scenario_optimizer.
Proof.
  split; [reflexivity|].
  apply (X25_last_prepare_wins (fun _ => three_layers)
           (fun _ => ActivationLayer RELU_ACTIVATION) scenario_optimizer).
  reflexivity.
Defined.
